(** * voice_recog.py: speaker enrolment and identification

    A shallow embedding of the decision core of [voice_recog.py]
    ([register_speaker], [identify_speaker], [remove_noise] and the SQLite
    table they share), followed by the properties stated about it.

    Conventions.
    - A Python [float] is an IEEE-754 binary64 value, here [spec_float] with
      precision 53 and exponent bound 1024; comparisons and arithmetic are
      the ones of [SpecFloat], so NaN and the infinities behave as in Python.
    - The distance scipy returns on two float32 arrays is a [np.float32]:
      the same [spec_float] values, with the arithmetic at precision 24 and
      exponent bound 128.  In an operation between a [np.float32] and a
      Python int or float, numpy (version 2) converts the Python number to
      float32 and works in float32; this is how [score < 0.7] and
      [(1 - score) * 100] are evaluated.
    - A one-dimensional [float32] numpy array is the list of the bit patterns
      of its elements; [tobytes] and [frombuffer] are the little-endian
      encodings numpy uses.
    - Exceptions are values: a function that can raise returns an [outcome].
      Only exceptions deriving from [Exception] are modelled.
    - The table [speakers] is the list of its rows in scan order. *)

From Stdlib Require Import ZArith List Lia Bool DecimalString.
From Stdlib Require Import Floats.SpecFloat.
From stdpp Require Import base strings list gmap.

Local Open Scope string_scope.
Local Open Scope list_scope.

(* ===================================================================== *)
(** ** Python floats *)
(* ===================================================================== *)

Module Float64.

Abbreviation float := spec_float.

Definition prec : Z := 53.
Definition emax : Z := 1024.

(** [float("inf")] *)
Definition inf : float := S754_infinity false.
Definition nan : float := S754_nan.
Definition zero : float := S754_zero false.

(** The literals of the source, as the nearest binary64 values. *)
Definition f1 : float := S754_finite false 4503599627370496 (-52).
Definition f2 : float := S754_finite false 4503599627370496 (-51).
Definition f100 : float := S754_finite false 7036874417766400 (-46).
(** [0.7] is 0x1.6666666666666p-1 *)
Definition f0_7 : float := S754_finite false 6305039478318694 (-53).
(** [0.01] is 0x1.47ae147ae147bp-7 *)
Definition f0_01 : float := S754_finite false 5764607523034235 (-59).
Definition f0_5 : float := S754_finite false 4503599627370496 (-53).

(** The float of a Python int, rounded to nearest. *)
Definition of_Z (n : Z) : float := binary_normalize prec emax n 0 false.

Definition add : float → float → float := SFadd prec emax.
Definition sub : float → float → float := SFsub prec emax.
Definition mul : float → float → float := SFmul prec emax.
Definition div : float → float → float := SFdiv prec emax.
Definition sqrt : float → float := SFsqrt prec emax.

(** [x < y] and [x <= y] on floats: false as soon as one side is NaN. *)
Definition ltb : float → float → bool := SFltb.
Definition leb : float → float → bool := SFleb.

(** A float that is a number strictly below [+inf]: not NaN, not [+inf]. *)
Definition below_inf (x : float) : bool := ltb x inf.

Definition is_nan (x : float) : bool :=
  match x with
  | S754_nan => true
  | _ => false
  end.

(** Position of a non-NaN float in the order [SFcompare] decides:
    the class (-inf, negative, zero, positive, +inf), then exponent and
    mantissa, mirrored for negative numbers. *)
Definition key (x : float) : option (Z * Z * Z) :=
  match x with
  | S754_nan => None
  | S754_zero _ => Some (0, 0, 0)%Z
  | S754_infinity true => Some (-2, 0, 0)%Z
  | S754_infinity false => Some (2, 0, 0)%Z
  | S754_finite true m e => Some (-1, - e, Z.neg m)%Z
  | S754_finite false m e => Some (1, e, Z.pos m)%Z
  end.

Definition key_lt (a b : Z * Z * Z) : Prop :=
  let '(c1, e1, m1) := a in
  let '(c2, e2, m2) := b in
  (c1 < c2 ∨ (c1 = c2 ∧ (e1 < e2 ∨ (e1 = e2 ∧ m1 < m2))))%Z.

(** *** Decimal output: [f"{x:.2f}"] *)

Definition dec (n : Z) : string := NilZero.string_of_uint (N.to_uint (Z.to_N n)).

Definition two_digits (n : Z) : string :=
  if (n <? 10)%Z then "0" +:+ dec n else dec n.

Definition sign_str (s : bool) : string := if s then "-" else "".

(** The integer nearest to [m * 2^e * 100], ties to even: the scaled value
    that the format [.2f] prints. *)
Definition round_cents (m : positive) (e : Z) : Z :=
  if (0 <=? e)%Z then (Z.pos m * 2 ^ e * 100)%Z
  else
    let num := (Z.pos m * 100)%Z in
    let den := (2 ^ (- e))%Z in
    let q := (num / den)%Z in
    let r := (num mod den)%Z in
    if (den <? 2 * r)%Z then (q + 1)%Z
    else if (2 * r =? den)%Z then (if Z.odd q then q + 1 else q)%Z
    else q.

Definition format_2f (x : float) : string :=
  match x with
  | S754_nan => "nan"
  | S754_infinity s => sign_str s +:+ "inf"
  | S754_zero s => sign_str s +:+ "0.00"
  | S754_finite s m e =>
      let c := round_cents m e in
      sign_str s +:+ dec (c / 100) +:+ "." +:+ two_digits (c mod 100)
  end.

End Float64.

(* ===================================================================== *)
(** ** numpy's float32 *)
(* ===================================================================== *)

Module Float32.

Abbreviation float := spec_float.

Definition prec : Z := 24.
Definition emax : Z := 128.

Definition add : float → float → float := SFadd prec emax.
Definition sub : float → float → float := SFsub prec emax.
Definition mul : float → float → float := SFmul prec emax.
Definition div : float → float → float := SFdiv prec emax.
Definition sqrt : float → float := SFsqrt prec emax.

(** The float32 nearest to a Python float: what numpy makes of a Python
    float that meets a [np.float32]. *)
Definition of_float64 (x : float) : float := mul x Float64.f1.

(** The float32 nearest to a Python int. *)
Definition of_Z (n : Z) : float := binary_normalize prec emax n 0 false.

Definition zero : float := S754_zero false.
(** [1], [2] and [100] *)
Definition f1 : float := S754_finite false 8388608 (-23).
Definition f2 : float := S754_finite false 8388608 (-22).
Definition f100 : float := S754_finite false 13107200 (-17).
(** [0.7] as a float32: 0x3F333333, that is 11744051 / 2^24, a little
    below the Python float [0.7]. *)
Definition f0_7 : float := S754_finite false 11744051 (-24).

End Float32.

(* ===================================================================== *)
(** ** Python exceptions and results *)
(* ===================================================================== *)

Module Py.

(** An exception object: its class and what [str(e)] returns. *)
Record exn : Type := mk_exn { exn_class : string; exn_str : string }.

Definition str (e : exn) : string := exn_str e.

Definition Exception (msg : string) : exn := mk_exn "Exception" msg.
Definition ValueError (msg : string) : exn := mk_exn "ValueError" msg.
Definition AttributeError (msg : string) : exn := mk_exn "AttributeError" msg.
Definition OperationalError (msg : string) : exn :=
  mk_exn "sqlite3.OperationalError" msg.
Definition ZeroDivisionError (msg : string) : exn := mk_exn "ZeroDivisionError" msg.
Definition OverflowError (msg : string) : exn := mk_exn "OverflowError" msg.
(** Reading a global name that has no binding. *)
Definition NameError (name : string) : exn :=
  mk_exn "NameError" ("name '" +:+ name +:+ "' is not defined").

Inductive outcome (A : Type) : Type :=
| Return (a : A)
| Raise (e : exn).
Arguments Return {A} a.
Arguments Raise {A} e.

Definition is_return {A} (o : outcome A) : bool :=
  match o with Return _ => true | Raise _ => false end.

(** One statement after another: an exception of the first ends both. *)
Definition and_then {A B} (o : outcome A) (k : A → outcome B) : outcome B :=
  match o with
  | Return a => k a
  | Raise e => Raise e
  end.

End Py.
Export Py.

(* ===================================================================== *)
(** ** numpy: float32 vectors and their byte encoding *)
(* ===================================================================== *)

Module Numpy.

(** A 1-D array of dtype float32: the 32-bit pattern of every element. *)
Definition ndarray : Type := list Z.
(** A [bytes] object: values 0..255. *)
Definition bytes : Type := list Z.

Definition size (a : ndarray) : nat := length a.

Definition word_ok (w : Z) : Prop := (0 ≤ w < 2 ^ 32)%Z.

Definition le32 (w : Z) : bytes :=
  [Z.land w 255; Z.land (Z.shiftr w 8) 255;
   Z.land (Z.shiftr w 16) 255; Z.land (Z.shiftr w 24) 255].

(** [a.tobytes()] *)
Definition tobytes (a : ndarray) : bytes := flat_map le32 a.

Fixpoint words (b : bytes) : ndarray :=
  match b with
  | b0 :: b1 :: b2 :: b3 :: rest =>
      Z.lor b0 (Z.lor (Z.shiftl b1 8) (Z.lor (Z.shiftl b2 16) (Z.shiftl b3 24)))
      :: words rest
  | _ => []
  end.

(** [np.frombuffer(b, dtype=np.float32)] *)
Definition frombuffer (b : bytes) : outcome ndarray :=
  if (Z.of_nat (length b) mod 4 =? 0)%Z then Return (words b)
  else Raise (ValueError "buffer size must be a multiple of element size").

(** The value of a float32 bit pattern, in the form float32 arithmetic
    keeps its numbers (24-bit mantissa, or the subnormal exponent). *)
Definition to_float32 (w : Z) : spec_float :=
  let s := Z.testbit w 31 in
  let ex := Z.land (Z.shiftr w 23) 255 in
  let fr := Z.land w (2 ^ 23 - 1) in
  if (ex =? 255)%Z then (if (fr =? 0)%Z then S754_infinity s else S754_nan)
  else if (ex =? 0)%Z then
    match fr with
    | Z.pos m => S754_finite s m (-149)
    | _ => S754_zero s
    end
  else
    match (2 ^ 23 + fr)%Z with
    | Z.pos m => S754_finite s m (ex - 150)
    | _ => S754_zero s
    end.

End Numpy.
Export Numpy.

(* ===================================================================== *)
(** ** scipy: cosine distance *)
(* ===================================================================== *)

Module Scipy.
Import Float32.

(** [scipy.spatial.distance.cosine] is a library function: the service
    below takes it as a parameter.  [cosine_f32] is the formula scipy
    documents, [1 - u.v / sqrt(u.u * v.v)] clipped to [0, 2], evaluated
    in float32 with the sums taken left to right; it is the instance the
    examples run with. *)
Definition dot (u v : ndarray) : float :=
  foldl add zero (zip_with (λ a b, mul (to_float32 a) (to_float32 b)) u v).

(** [np.clip(x, 0.0, 2.0)]: NaN is passed through. *)
Definition clip_0_2 (x : float) : float :=
  if SFltb x zero then zero else if SFltb f2 x then f2 else x.

Definition cosine_f32 (u v : ndarray) : float :=
  clip_0_2 (sub f1 (div (dot u v) (sqrt (mul (dot u u) (dot v v))))).

End Scipy.

(* ===================================================================== *)
(** ** The SQLite database *)
(* ===================================================================== *)

Module Sqlite.

(** A row of [speakers (name TEXT PRIMARY KEY, embedding BLOB)]. *)
Abbreviation row := (string * bytes)%type.

(** The file [speaker_database.db]: the table [speakers] when it has been
    created, its rows in the order a full scan returns them. *)
Record database : Type := mk_db { speakers : option (list row) }.

Definition fresh : database := mk_db None.

Definition no_such_table : exn := OperationalError "no such table: speakers".

(** [CREATE TABLE IF NOT EXISTS speakers ...] *)
Definition create_table_if_not_exists (db : database) : database :=
  match speakers db with
  | Some _ => db
  | None => mk_db (Some [])
  end.

(** [INSERT OR REPLACE INTO speakers (name, embedding) VALUES (?, ?)]:
    the row that holds the same primary key is deleted, then the new row
    is added with the next row id, so it comes last in a scan. *)
Definition insert_or_replace (name : string) (blob : bytes) (t : list row)
  : list row :=
  filter (λ r, r.1 ≠ name) t ++ [(name, blob)].

(** The blobs stored under a name. *)
Definition stored (name : string) (t : list row) : list bytes :=
  (filter (λ r, r.1 = name) t).*2.

End Sqlite.
Export Sqlite.

(* ===================================================================== *)
(** ** Functions of the module run against the database *)
(* ===================================================================== *)

(** A computation that reads and writes the database and may raise. *)
Definition M (A : Type) : Type := database → outcome A * database.

Definition ret {A} (a : A) : M A := λ db, (Return a, db).
Definition raise {A} (e : exn) : M A := λ db, (Raise e, db).
Definition bind {A B} (m : M A) (k : A → M B) : M B :=
  λ db, match m db with
        | (Return a, db') => k a db'
        | (Raise e, db') => (Raise e, db')
        end.
(** [try: m except Exception as e: h e] *)
Definition try_except {A} (m : M A) (h : exn → M A) : M A :=
  λ db, match m db with
        | (Return a, db') => (Return a, db')
        | (Raise e, db') => h e db'
        end.
Definition lift {A} (o : outcome A) : M A := λ db, (o, db).

Notation "'do' x <- m ; k" := (bind m (λ x, k))
  (at level 10, x pattern, m at level 100, k at level 200,
   format "'[v' 'do'  x  <-  m ; '/' k ']'").

(** [cursor.execute("SELECT name, embedding FROM speakers"); cursor.fetchall()] *)
Definition select_speakers : M (list row) :=
  λ db, match speakers db with
        | Some t => (Return t, db)
        | None => (Raise no_such_table, db)
        end.

(** [cursor.execute("INSERT OR REPLACE ...", (name, blob)); conn.commit()] *)
Definition execute_insert_or_replace (name : string) (blob : bytes) : M unit :=
  λ db, match speakers db with
        | Some t => (Return tt, mk_db (Some (insert_or_replace name blob t)))
        | None => (Raise no_such_table, db)
        end.

(** [initialize_db()] *)
Definition initialize_db : M unit :=
  λ db, (Return tt, create_table_if_not_exists db).

(** What [identify_speaker] returns: a dict with the keys [status],
    [message], [probabilities] and, depending on the branch, [person] and
    [confidence]; an absent key is [None]. *)
Record response : Type := mk_response {
  status : string;
  message : string;
  person : option string;
  confidence : option string;
  probabilities : gmap string string
}.

(** The loop variables [best_match], [best_score], [all_scores]. *)
Record loop_state : Type := mk_loop {
  best_match : option string;
  best_score : Float64.float;
  all_scores : gmap string string
}.

(** [f"{(1-score)*100:.2f}%"] for a [np.float32] score: the difference
    and the product are float32, and the format prints the exact value of
    the product. *)
Definition percent (score : Float64.float) : string :=
  Float64.format_2f (Float32.mul (Float32.sub Float32.f1 score) Float32.f100) +:+ "%".

Section Service.

(** The global name [extract_embedding]: [None] when the module has no
    binding for it.  When bound it maps the path of an audio file to an
    embedding, to Python's [None], or raises. *)
Variable extract_embedding_global : option (string → outcome (option ndarray)).
(** [scipy.spatial.distance.cosine]; on two float32 arrays the distance
    is a [np.float32]. *)
Variable cosine : ndarray → ndarray → Float64.float.

(** The call [extract_embedding(audio_file)]. *)
Definition call_extract_embedding (audio_file : string) : M (option ndarray) :=
  match extract_embedding_global with
  | None => raise (NameError "extract_embedding")
  | Some f => lift (f audio_file)
  end.

(** [register_speaker(name, audio_file)] *)
Definition register_speaker (name audio_file : string) : M string :=
  try_except
    (do embedding <- call_extract_embedding audio_file;
     match embedding with
     | None =>
         ret ("Failed to extract voice features for " +:+ name +:+ ". Please try again.")
     | Some emb =>
         if decide (size emb = 0) then
           ret ("Failed to extract voice features for " +:+ name +:+ ". Please try again.")
         else
           do _ <- execute_insert_or_replace name (tobytes emb);
           ret ("Speaker '" +:+ name +:+ "' registered successfully.")
     end)
    (λ e, raise (Exception ("Error in register_speaker: " +:+ str e))).

(** One iteration of [for name, emb_blob in speakers]. *)
Definition loop_body (input_embedding : option ndarray) (st : loop_state)
    (r : row) : outcome loop_state :=
  let '(name, emb_blob) := r in
  match frombuffer emb_blob with
  | Raise e => Raise e
  | Return stored_embedding =>
      match input_embedding with
      | None => Raise (AttributeError "'NoneType' object has no attribute 'shape'")
      | Some inp =>
          if negb (length stored_embedding =? length inp)%nat then Return st
          else
            let score := cosine inp stored_embedding in
            let scores := <[name := percent score]> (all_scores st) in
            if Float64.ltb score (best_score st)
            then Return (mk_loop (Some name) score scores)
            else Return (mk_loop (best_match st) (best_score st) scores)
      end
  end.

Fixpoint for_each (input_embedding : option ndarray) (st : loop_state)
    (rows : list row) : outcome loop_state :=
  match rows with
  | [] => Return st
  | r :: rest =>
      match loop_body input_embedding st r with
      | Return st' => for_each input_embedding st' rest
      | Raise e => Raise e
      end
  end.

Definition loop_init : loop_state := mk_loop None Float64.inf ∅.

(** Lines 92 to 117 of [identify_speaker]: the answer built from the
    loop variables.  With a best match, [best_score] is a [np.float32],
    and [best_score < 0.7] compares it with the float32 of [0.7]. *)
Definition verdict (st : loop_state) : response :=
  match best_match st with
  | None =>
      mk_response "error" "Could not compare voice with registered users." None None ∅
  | Some name =>
      let conf := percent (best_score st) in
      if Float64.ltb (best_score st) Float32.f0_7 then
        mk_response "granted" ("Welcome " +:+ name) (Some name) (Some conf) (all_scores st)
      else
        mk_response "denied" "ACCESS DENIED" None (Some conf) (all_scores st)
  end.

(** Lines 69 to 117 of [identify_speaker]: the decision once the
    embedding of the sample and the rows of the table are at hand. *)
Definition match_speakers (input_embedding : option ndarray)
    (rows : list row) : outcome response :=
  match rows with
  | [] => Return (mk_response "error" "No registered speakers found." None None ∅)
  | _ =>
      match for_each input_embedding loop_init rows with
      | Raise e => Raise e
      | Return st => Return (verdict st)
      end
  end.

(** [identify_speaker(audio_file)] *)
Definition identify_speaker (audio_file : string) : M response :=
  try_except
    (do input_embedding <- call_extract_embedding audio_file;
     do rows <- select_speakers;
     lift (match_speakers input_embedding rows))
    (λ e, ret (mk_response "error" ("Error during identification: " +:+ str e)
                 None None ∅)).

(** The [try] block that ends the route [/register]: what the handler
    hands to [jsonify], as the pair of [status] and [message]. *)
Definition register_route_try (name file_path : string) : M (string * string) :=
  try_except
    (do msg <- register_speaker name file_path;
     ret ("success", msg))
    (λ e, ret ("error", "Error during registration: " +:+ str e)).

End Service.

(* ===================================================================== *)
(** ** Noise reduction *)
(* ===================================================================== *)

(** [seq[:k]] for a Python integer [k]: a negative [k] counts from the end. *)
Definition slice_to {A} (k : Z) (l : list A) : list A :=
  if (0 <=? k)%Z then take (Z.to_nat k) l
  else take (Z.to_nat (Z.of_nat (length l) + k)) l.

(** [float(n)] for a Python int, as in [0.5 * n] and [n / x]. *)
Definition float_of_int (n : Z) : outcome Float64.float :=
  match Float64.of_Z n with
  | S754_infinity _ => Raise (OverflowError "int too large to convert to float")
  | x => Return x
  end.

(** [x / y] on Python floats: a zero divisor raises.  The text of the
    message depends on the Python version; nothing below relies on it. *)
Definition truediv (x y : Float64.float) : outcome Float64.float :=
  match y with
  | S754_zero _ => Raise (ZeroDivisionError "float division by zero")
  | _ => Return (Float64.div x y)
  end.

(** What [remove_noise] uses of numpy, scipy.signal and librosa.  [R] is the
    dtype of the samples and of the power spectra, [C] the dtype of the
    STFT coefficients; a 2-D array is the list of its rows (one row per
    frequency bin, one column per frame).  The element arithmetic, the
    filter design and the two transforms are the library's, the transforms
    on the finite signals librosa accepts; the checks [butter] and
    [filtfilt] make on their arguments, and the way [filtfilt] pads,
    filters twice and cuts, are written out below. *)
Record numlib (R C : Type) : Type := mk_numlib {
  of_int : Z → R;                      (* a Python int as an element      *)
  of_float : Float64.float → R;        (* a Python float as an element    *)
  radd : R → R → R;
  rsub : R → R → R;
  rmul : R → R → R;
  rdiv : R → R → R;
  rmax : R → R → R;                    (* np.maximum                      *)
  rabs : R → R;                        (* np.abs on reals                 *)
  rsquare : R → R;                     (* x ** 2                          *)
  rroot : R → R;                       (* x ** (1/2)                      *)
  rltb : R → R → bool;                 (* x < y                           *)
  rmean : list R → R;                  (* np.mean of one row              *)
  cabs : C → R;                        (* np.abs on complex               *)
  cangle : C → R;                      (* np.angle                        *)
  cexp_i : R → C;                      (* np.exp(1j * x)                  *)
  cscale : R → C → C;                  (* real * complex                  *)
  butter_design : Z → Float64.float → list R * list R;
                                       (* the (b, a) of a high-pass       *)
  lfilter_zi : list R → list R → list R;
  stft : list R → list (list C);       (* librosa.stft                    *)
  istft : list (list C) → list R       (* librosa.istft                   *)
}.
Arguments of_int {R C}. Arguments of_float {R C}.
Arguments radd {R C}. Arguments rsub {R C}. Arguments rmul {R C}.
Arguments rdiv {R C}.
Arguments rmax {R C}. Arguments rabs {R C}. Arguments rsquare {R C}.
Arguments rroot {R C}. Arguments rltb {R C}. Arguments rmean {R C}.
Arguments cabs {R C}. Arguments cangle {R C}. Arguments cexp_i {R C}.
Arguments cscale {R C}. Arguments butter_design {R C}.
Arguments lfilter_zi {R C}.
Arguments stft {R C}. Arguments istft {R C}.

Section Conditioning.

Context {R C : Type} (np : numlib R C).

(** [butter(order, Wn, btype='high', analog=False)]: a digital filter is
    designed only for a critical frequency strictly between 0 and 1. *)
Definition butter (order : Z) (Wn : Float64.float) : outcome (list R * list R) :=
  if Float64.leb Wn Float64.zero || Float64.leb Float64.f1 Wn then
    Raise (ValueError "Digital filter critical frequencies must be 0 < Wn < 1")
  else Return (butter_design np order Wn).

(** [butter_highpass(cutoff, fs, order)] *)
Definition butter_highpass (cutoff fs order : Z) : outcome (list R * list R) :=
  and_then (float_of_int fs) (λ fs_float,
  let nyq := Float64.mul Float64.f0_5 fs_float in
  and_then (float_of_int cutoff) (λ cutoff_float,
  and_then (truediv cutoff_float nyq) (λ normal_cutoff,
  butter order normal_cutoff))).

(** [odd_ext(x, n)]: [x] extended on both sides by [n] samples mirrored
    through its end points. *)
Definition odd_ext (x : list R) (n : nat) : list R :=
  let left_end := hd (of_int np 0) x in
  let right_end := hd (of_int np 0) (rev x) in
  ((λ v, rsub np (rmul np (of_int np 2) left_end) v) <$> rev (take n (drop 1 x)))
  ++ x
  ++ ((λ v, rsub np (rmul np (of_int np 2) right_end) v) <$> take n (drop 1 (rev x))).

(** The new state of [lfilter] after the sample [x] gave the output [y];
    [z], [b] and [a] are given from their second element on. *)
Fixpoint next_state (z b a : list R) (x y : R) : list R :=
  match b, a with
  | bi :: b', ai :: a' =>
      match z with
      | zn :: z' =>
          rsub np (radd np zn (rmul np bi x)) (rmul np ai y) :: next_state z' b' a' x y
      | [] =>
          rsub np (rmul np bi x) (rmul np ai y) :: next_state [] b' a' x y
      end
  | _, _ => []
  end.

(** [lfilter] sample by sample (direct form II transposed). *)
Fixpoint lfilter_run (b a z : list R) (xs : list R) : list R :=
  match xs with
  | [] => []
  | x :: xs' =>
      let b0x := rmul np (hd (of_int np 0) b) x in
      let y := match z with
               | z0 :: _ => radd np z0 b0x
               | [] => b0x
               end in
      y :: lfilter_run b a (next_state (drop 1 z) (drop 1 b) (drop 1 a) x y) xs'
  end.

(** [lfilter(b, a, x, zi=zi)[0]]: the coefficients are divided by [a[0]]
    and brought to one length. *)
Definition lfilter (b a zi x : list R) : list R :=
  let n := max (length a) (length b) in
  let a0 := hd (of_int np 0) a in
  let norm (c : list R) :=
    ((λ v, rdiv np v a0) <$> c) ++ replicate (n - length c) (of_int np 0) in
  lfilter_run (norm b) (norm a) zi x.

(** [filtfilt(b, a, x)] with its default padding. *)
Definition filtfilt (b a x : list R) : outcome (list R) :=
  let edge := (3 * max (length a) (length b))%nat in
  if (length x <=? edge)%nat then
    Raise (ValueError ("The length of the input vector x must be greater than padlen, which is "
                       +:+ Float64.dec (Z.of_nat edge) +:+ "."))
  else
    let ext := odd_ext x edge in
    let zi := lfilter_zi np b a in
    let x0 := hd (of_int np 0) ext in
    let y := lfilter b a ((λ v, rmul np v x0) <$> zi) ext in
    let y0 := hd (of_int np 0) (rev y) in
    let y' := rev (lfilter b a ((λ v, rmul np v y0) <$> zi) (rev y)) in
    Return (drop edge (take (length y' - edge) y')).

(** [apply_highpass_filter(data, cutoff, fs, order)] *)
Definition apply_highpass_filter (data : list R) (cutoff fs order : Z)
  : outcome (list R) :=
  and_then (butter_highpass cutoff fs order) (λ '(b, a), filtfilt b a data).

(** [audio_gated[np.abs(audio_gated) < noise_gate_threshold] = 0], one sample. *)
Definition noise_gate (x : R) : R :=
  let noise_gate_threshold := of_float np Float64.f0_01 in
  if rltb np (rabs np x) noise_gate_threshold then of_int np 0 else x.

(** [np.abs(z)**2] *)
Definition power (z : C) : R := rsquare np (cabs np z).

(** [np.maximum(p - reduction_factor * n, 0.01 * p)] for one bin. *)
Definition subtract_bin (p n : R) : R :=
  let reduction_factor := of_float np Float64.f0_7 in
  rmax np (rsub np p (rmul np reduction_factor n))
          (rmul np (of_float np Float64.f0_01) p).

(** [s**(1/2) * np.exp(1j * np.angle(z))] for one bin. *)
Definition rebuild_bin (s : R) (z : C) : C :=
  cscale np (rroot np s) (cexp_i np (cangle np z)).

(** Lines 149 and 150: the noise power per frequency bin, from the start
    of [audio]. *)
Definition noise_spectrum_of (audio : list R) (sr : Z) : list R :=
  let noise_sample := slice_to (Z.quot sr 2) audio in
  (λ row, rmean np (power <$> row)) <$> stft np noise_sample.

(** Lines 149 to 161: [audio_denoised] before its length is adjusted.
    [librosa.stft] gives every signal the same number of rows, so the
    subtraction pairs the rows of the two spectrograms. *)
Definition spectral_subtraction (audio audio_gated : list R) (sr : Z) : list R :=
  let noise_spectrum := noise_spectrum_of audio sr in
  let audio_stft := stft np audio_gated in
  let audio_spec := fmap power <$> audio_stft in
  let audio_spec_sub :=
    zip_with (λ row n, (λ p, subtract_bin p n) <$> row) audio_spec noise_spectrum in
  istft np (zip_with (zip_with rebuild_bin) audio_spec_sub audio_stft).

(** [remove_noise(audio, sr)] for an int [sr].  [len(audio) > sr * 0.5] is
    [sr < 2 * len(audio)], and [int(sr * 0.5)] is [sr] halved towards zero,
    as long as [sr] is an int a float holds exactly. *)
Definition remove_noise (audio : list R) (sr : Z) : outcome (list R) :=
  and_then (apply_highpass_filter audio 100 sr 5) (λ audio_filtered,
  let audio_gated := noise_gate <$> audio_filtered in
  if (sr <? 2 * Z.of_nat (length audio))%Z then
    let audio_denoised := spectral_subtraction audio audio_gated sr in
    if (length audio <=? length audio_denoised)%nat
    then Return (take (length audio) audio_denoised)
    else Return (audio_denoised
                 ++ replicate (length audio - length audio_denoised) (of_int np 0))
  else Return audio_gated).

End Conditioning.

(* ===================================================================== *)
(** ** Who calls whom in the module *)
(* ===================================================================== *)

Module CallGraph.

(** The function names the module uses at call sites of its own code. *)
Inductive name : Set :=
| F_initialize_db | F_extract_embedding | F_register_speaker
| F_identify_speaker | F_butter_highpass | F_apply_highpass_filter
| F_remove_noise | F_index | F_record | F_register | F_classify | F_main.

Definition name_eqb (a b : name) : bool :=
  match a, b with
  | F_initialize_db, F_initialize_db | F_extract_embedding, F_extract_embedding
  | F_register_speaker, F_register_speaker | F_identify_speaker, F_identify_speaker
  | F_butter_highpass, F_butter_highpass
  | F_apply_highpass_filter, F_apply_highpass_filter
  | F_remove_noise, F_remove_noise | F_index, F_index | F_record, F_record
  | F_register, F_register | F_classify, F_classify | F_main, F_main => true
  | _, _ => false
  end.

(** The names bound by a [def] of the file ([F_main] stands for the block
    under [if __name__ == '__main__']). *)
Definition defined (f : name) : bool :=
  match f with
  | F_extract_embedding => false
  | _ => true
  end.

(** The names a body calls. *)
Definition calls (f : name) : list name :=
  match f with
  | F_register_speaker => [F_extract_embedding]
  | F_identify_speaker => [F_extract_embedding]
  | F_apply_highpass_filter => [F_butter_highpass]
  | F_remove_noise => [F_apply_highpass_filter]
  | F_register => [F_register_speaker]
  | F_classify => [F_identify_speaker]
  | F_main => [F_initialize_db]
  | _ => []
  end.

(** What the interpreter enters: the routes and the main block. *)
Definition entry_points : list name :=
  [F_index; F_record; F_register; F_classify; F_main].

Definition mem (f : name) (l : list name) : bool := existsb (name_eqb f) l.

(** Names reached from [todo]; a name without a [def] has no body to run. *)
Fixpoint reach (fuel : nat) (seen todo : list name) : list name :=
  match fuel with
  | O => seen
  | S fuel' =>
      match todo with
      | [] => seen
      | f :: rest =>
          if mem f seen then reach fuel' seen rest
          else reach fuel' (f :: seen)
                 ((if defined f then calls f else []) ++ rest)
      end
  end.

Definition invoked : list name := reach 64 [] entry_points.

End CallGraph.

(* ===================================================================== *)
(** ** The routes [/register] and [/classify] *)
(* ===================================================================== *)

(** What a request handler works on: the database, and how long the
    handler has slept, counted in half-seconds ([time.sleep(0.5)] is one,
    [time.sleep(2)] is four).  The time the other statements take is not
    counted. *)
Record world : Type := mk_world { w_db : database; w_slept : Z }.

(** [wait_time] after [k] rounds of [wait_time += 0.5], from [0]. *)
Fixpoint wait_time_after (k : nat) : Float64.float :=
  match k with
  | O => Float64.zero
  | S k' => Float64.add (wait_time_after k') Float64.f0_5
  end.

Section Routes.

Variable extract_embedding_global : option (string → outcome (option ndarray)).
Variable cosine : ndarray → ndarray → Float64.float.
(** [os.path.exists(path)] for a path that is a [str], as a function of the
    time slept since the clock of the [world] started. *)
Variable path_exists : string → Z → bool.

(** [max_wait = 5] *)
Definition max_wait : Float64.float := Float64.of_Z 5.

(** [while not os.path.exists(file_path) and wait_time < max_wait:
       time.sleep(0.5); wait_time += 0.5]
    The result is [wait_time] and the clock when the loop is left, or
    [None] when [fuel] rounds were not enough to leave it. *)
Fixpoint wait_loop (fuel : nat) (file_path : string) (wait_time : Float64.float)
    (slept : Z) : option (Float64.float * Z) :=
  match fuel with
  | O => None
  | S fuel' =>
      if path_exists file_path slept then Some (wait_time, slept)
      else if Float64.ltb wait_time max_wait
           then wait_loop fuel' file_path (Float64.add wait_time Float64.f0_5) (slept + 1)
           else Some (wait_time, slept)
  end.

(** The route [/register], for a request whose [file] argument is present;
    [name] is [request.args.get('name')].  The answer is what goes to
    [jsonify]: [status] and [message]. *)
Definition register (fuel : nat) (file_path : string) (name : option string)
    (w : world) : option (outcome (string * string) * world) :=
  match name with
  | None => Some (Return ("error", "No name provided for registration"), w)
  | Some nm =>
      if decide (nm = "") then
        Some (Return ("error", "No name provided for registration"), w)
      else
        match wait_loop fuel file_path Float64.zero (w_slept w) with
        | None => None
        | Some (_, slept) =>
            if negb (path_exists file_path slept) then
              Some (Return ("error", "Recording file not found"),
                    mk_world (w_db w) slept)
            else
              let '(o, db') :=
                register_route_try extract_embedding_global nm file_path (w_db w) in
              Some (o, mk_world db' (slept + 4))
        end
  end.

(** The route [/classify]; [file_path] is [request.args.get('file')]. *)
Definition classify (fuel : nat) (file_path : option string) (w : world)
    : option (outcome response * world) :=
  match file_path with
  | None => Some (Return (mk_response "error" "No file path provided" None None ∅), w)
  | Some fp =>
      if decide (fp = "") then
        Some (Return (mk_response "error" "No file path provided" None None ∅), w)
      else
        match wait_loop fuel fp Float64.zero (w_slept w) with
        | None => None
        | Some (_, slept) =>
            if negb (path_exists fp slept) then
              Some (Return (mk_response "error" "Recording file not found" None None ∅),
                    mk_world (w_db w) slept)
            else
              let '(o, db') :=
                identify_speaker extract_embedding_global cosine fp (w_db w) in
              Some (o, mk_world db' (slept + 4))
        end
  end.

End Routes.

(* ===================================================================== *)
(** ** Vocabulary of the statements *)
(* ===================================================================== *)

(** A blob that [np.frombuffer] accepts as float32 data. *)
Definition decodes (r : row) : bool := (Z.of_nat (length r.2) mod 4 =? 0)%Z.

Section Candidates.
Variable cosine : ndarray → ndarray → Float64.float.

(** The identities the comparison retains for a query: the rows whose
    stored vector has the length of the query, each with its cosine
    distance to the query, in scan order. *)
Definition candidates (q : ndarray) (rows : list row)
  : list (string * Float64.float) :=
  omap (λ r : row,
          let e := words r.2 in
          if (length e =? length q)%nat then Some (r.1, cosine q e) else None)
       rows.
End Candidates.

(** What one iteration does with a retained identity and its distance. *)
Definition step (st : loop_state) (c : string * Float64.float) : loop_state :=
  let scores := <[c.1 := percent c.2]> (all_scores st) in
  if Float64.ltb c.2 (best_score st) then mk_loop (Some c.1) c.2 scores
  else mk_loop (best_match st) (best_score st) scores.

(** What the loop variables know about the identities seen so far. *)
Definition best_inv (cs : list (string * Float64.float)) (st : loop_state) : Prop :=
  match best_match st with
  | None =>
      best_score st = Float64.inf ∧
      ∀ j c, cs !! j = Some c → Float64.ltb c.2 Float64.inf = false
  | Some n =>
      ∃ i, cs !! i = Some (n, best_score st) ∧
           (∀ j c, cs !! j = Some c → Float64.ltb c.2 (best_score st) = false) ∧
           (∀ j c, (j < i)%nat → cs !! j = Some c → Float64.key c.2 ≠ None →
                   Float64.ltb (best_score st) c.2 = true) ∧
           Float64.below_inf (best_score st) = true
  end.

(** Names are unique in the table, when it exists. *)
Definition unique_names (db : database) : Prop :=
  match speakers db with
  | Some t => NoDup t.*1
  | None => True
  end.

(** A run of enrolment requests, each a name and an audio file; a request
    that raises leaves the later ones to run, as the route does. *)
Fixpoint enroll_all (ext : option (string → outcome (option ndarray)))
    (reqs : list (string * string)) (db : database) : database :=
  match reqs with
  | [] => db
  | (name, file) :: rest => enroll_all ext rest (register_speaker ext name file db).2
  end.

(** The table, empty when it has not been created. *)
Definition table (db : database) : list row := default [] (speakers db).

(* ===================================================================== *)
(** ** Data for the examples *)
(* ===================================================================== *)

Module Sample.

(** float32 bit patterns of 1.0, -1.0 and 0.0 *)
Definition w_one : Z := 0x3F800000.
Definition w_minus_one : Z := 0xBF800000.
Definition w_zero : Z := 0.

Definition v_east : ndarray := [w_one; w_zero].
Definition v_north : ndarray := [w_zero; w_one].
Definition v_west : ndarray := [w_minus_one; w_zero].
Definition v_short : ndarray := [w_one].

(** An extractor bound on four files. *)
Definition extractor (f : string) : outcome (option ndarray) :=
  if decide (f = "east.wav") then Return (Some v_east)
  else if decide (f = "north.wav") then Return (Some v_north)
  else if decide (f = "west.wav") then Return (Some v_west)
  else if decide (f = "silence.wav") then Return None
  else if decide (f = "empty.wav") then Return (Some [])
  else Raise (ValueError "could not open the file").

(** (269, 855, 25, 0) and (1, 0, 0, 0): the cosine distance, in float32,
    is 0x3F333333. *)
Definition v_edge : ndarray := [0x43868000; 0x4455C000; 0x41C80000; 0]%Z.
Definition v_axis : ndarray := [w_one; w_zero; w_zero; w_zero].
Definition rows_edge : list row := [("alice", tobytes v_axis)].

Definition rows_two : list row :=
  [("alice", tobytes v_east); ("bob", tobytes v_north)].
Definition rows_mixed : list row :=
  [("carol", tobytes v_short); ("alice", tobytes v_east)].
Definition rows_far : list row :=
  [("mallory", tobytes v_west)].
Definition rows_tie : list row :=
  [("bob", tobytes v_north); ("alice", tobytes v_east); ("eve", tobytes v_east)].

(** A stand-in for the numeric libraries, on numbers with two decimals
    held as integers (the value times 100): the filter designed is the
    first difference [y[n] = x[n] - x[n-1]] written with six coefficients,
    its steady state is taken as zero, the STFT has one bin and one frame
    per sample, with a zero imaginary part, and the inverse STFT loses the
    last frame. *)
Definition hundredths (x : Float64.float) : Z :=
  match x with
  | S754_finite s m e => if s then - Float64.round_cents m e else Float64.round_cents m e
  | _ => 0
  end%Z.

Definition backend : numlib Z (Z * Z) :=
  mk_numlib Z (Z * Z)
    (λ n, 100 * n)%Z hundredths
    Z.add Z.sub (λ a b, a * b / 100)%Z (λ a b, 100 * a / b)%Z
    Z.max Z.abs (λ x, x * x / 100)%Z
    (λ x, Z.sqrt (100 * x))%Z Z.ltb
    (λ row, (foldr Z.add 0 row / Z.max 1 (Z.of_nat (length row)))%Z)
    (λ z, Z.abs z.1) (λ z, if (z.1 <? 0)%Z then 314 else 0)%Z
    (λ a, if (a =? 0)%Z then (100, 0) else (-100, 0))%Z
    (λ a z, (a * z.1 / 100, a * z.2 / 100)%Z)
    (λ _ _, ([100; -100; 0; 0; 0; 0], [100; 0; 0; 0; 0; 0]))%Z
    (λ _ _, [0; 0; 0; 0; 0]%Z)
    (λ x, [(λ v, (v, 0%Z)) <$> x])
    (λ X, match X with
          | row :: _ => fst <$> take (length row - 1) row
          | [] => []
          end).


(** 120 samples between -10.00 and 10.00. *)
Definition audio_120 : list Z :=
  (λ i, 100 * ((i * 37) `mod` 21 - 10))%Z <$> seqZ 0 120.

Definition db_empty : database := mk_db (Some []).
Definition db_two : database := mk_db (Some rows_two).

End Sample.

(* ===================================================================== *)
(** * Properties *)
(* ===================================================================== *)

(** ** The order on floats *)

Module FloatOrder.
Import Float64.

Ltac split_compare :=
  repeat match goal with
         | |- context [Z.compare ?a ?b] => destruct (Z.compare_spec a b)
         | |- context [Pos.compare ?a ?b] => destruct (Pos.compare_spec a b)
         end.

Lemma ltb_key (x y : float) :
  ltb x y = true ↔
  match key x, key y with
  | Some a, Some b => key_lt a b
  | _, _ => False
  end.
Proof.
  unfold ltb, SFltb, SFcompare.
  destruct x as [[]|[]| |[] mx ex], y as [[]|[]| |[] my ey]; cbn;
    change (PosDef.Pos.compare_cont Eq) with Pos.compare;
    split_compare; cbn; split; intros; try discriminate; try lia; try done.
Qed.

Lemma leb_key (x y : float) :
  leb x y = true ↔
  match key x, key y with
  | Some a, Some b => ¬ key_lt b a
  | _, _ => False
  end.
Proof.
  unfold leb, SFleb, SFcompare.
  destruct x as [[]|[]| |[] mx ex], y as [[]|[]| |[] my ey]; cbn;
    change (PosDef.Pos.compare_cont Eq) with Pos.compare;
    split_compare; cbn; split; intros; try discriminate; try lia; try done.
Qed.

Lemma key_lt_trans a b c : key_lt a b → key_lt b c → key_lt a c.
Proof. destruct a as [[??]?], b as [[??]?], c as [[??]?]; cbn; lia. Qed.

Lemma key_lt_irrefl a : ¬ key_lt a a.
Proof. destruct a as [[??]?]; cbn; lia. Qed.

Lemma key_lt_le_trans a b c : key_lt a b → ¬ key_lt c b → key_lt a c.
Proof. destruct a as [[??]?], b as [[??]?], c as [[??]?]; cbn; lia. Qed.

Lemma key_le_lt_trans a b c : ¬ key_lt b a → key_lt b c → key_lt a c.
Proof. destruct a as [[??]?], b as [[??]?], c as [[??]?]; cbn; lia. Qed.

Lemma key_le_antisym a b : ¬ key_lt a b → ¬ key_lt b a → a = b.
Proof.
  destruct a as [[??]?], b as [[??]?]; cbn; intros.
  repeat f_equal; lia.
Qed.

Lemma ltb_irrefl x : ltb x x = false.
Proof.
  apply not_true_is_false. rewrite ltb_key.
  destruct (key x); [apply key_lt_irrefl | tauto].
Qed.

Lemma ltb_trans x y z : ltb x y = true → ltb y z = true → ltb x z = true.
Proof.
  rewrite !ltb_key. destruct (key x), (key y), (key z); try tauto.
  apply key_lt_trans.
Qed.

(** [x < y], [z] is a number and not below [y]: then [x < z]. *)
Lemma ltb_not_ltb_trans x y z :
  ltb x y = true → ltb z y = false → key z ≠ None → ltb x z = true.
Proof.
  intros Hxy Hzy Hz. apply not_true_iff_false in Hzy.
  rewrite ltb_key in *. destruct (key x), (key y), (key z); try tauto.
  eapply key_lt_le_trans; eauto.
Qed.

Lemma leb_is_number x y : leb x y = true → key x ≠ None ∧ key y ≠ None.
Proof. rewrite leb_key. destruct (key x), (key y); try tauto. done. Qed.

Lemma ltb_is_number x y : ltb x y = true → key x ≠ None ∧ key y ≠ None.
Proof. rewrite ltb_key. destruct (key x), (key y); try tauto. done. Qed.

(** Two numbers neither of which is below the other hold the same place. *)
Lemma same_place x y :
  leb x y = true → ltb x y = false → key x = key y.
Proof.
  intros Hle Hlt. apply not_true_iff_false in Hlt.
  rewrite leb_key in Hle. rewrite ltb_key in Hlt.
  destruct (key x), (key y); try tauto.
  f_equal. by apply key_le_antisym.
Qed.

Lemma ltb_same_place x y z : key x = key y → ltb x z = ltb y z.
Proof.
  intros E. apply eq_true_iff_eq. rewrite !ltb_key, E. done.
Qed.

Lemma ltb_same_place_r x y z : key x = key y → ltb z x = ltb z y.
Proof.
  intros E. apply eq_true_iff_eq. rewrite !ltb_key, E. done.
Qed.

Lemma leb_same_place x y z : key x = key y → leb z x = leb z y.
Proof.
  intros E. apply eq_true_iff_eq. rewrite !leb_key, E. done.
Qed.

Lemma leb_of_same_place x y : key x = key y → key x ≠ None → leb x y = true.
Proof.
  intros E Hx. rewrite leb_key, <- E. destruct (key x); [|done].
  apply key_lt_irrefl.
Qed.

(** On numbers the order is total. *)
Lemma not_ltb_leb x y :
  key x ≠ None → key y ≠ None → ltb x y = false → leb y x = true.
Proof.
  intros Hx Hy H. apply not_true_iff_false in H.
  rewrite ltb_key in H. rewrite leb_key.
  destruct (key x), (key y); done.
Qed.

Lemma leb_not_ltb x y : leb x y = true → ltb y x = false.
Proof.
  intros H. apply not_true_iff_false. rewrite leb_key in H. rewrite ltb_key.
  destruct (key x), (key y); tauto.
Qed.

End FloatOrder.

(** ** The comparison loop *)

Section Loop.
Import Float64 FloatOrder.
Variable cosine : ndarray → ndarray → float.

Lemma for_each_fold (q : ndarray) (rows : list row) (st : loop_state) :
  forallb decodes rows = true →
  for_each cosine (Some q) st rows = Return (foldl step st (candidates cosine q rows)).
Proof.
  revert st. induction rows as [|[name blob] rows IH]; intros st Hdec; [done|].
  cbn in Hdec. apply andb_true_iff in Hdec as [Hd Hrest].
  unfold decodes in Hd; cbn in Hd.
  cbn [for_each loop_body]. unfold frombuffer. rewrite Hd.
  unfold candidates; cbn [omap list_omap fst snd].
  destruct (length (words blob) =? length q)%nat eqn:E; cbn [negb].
  - cbn [foldl]. unfold step at 2; cbn [fst snd].
    destruct (ltb _ _); apply IH, Hrest.
  - apply IH, Hrest.
Qed.

Lemma candidates_names_sublist (q : ndarray) (rows : list row) :
  sublist (candidates cosine q rows).*1 rows.*1.
Proof.
  induction rows as [|[name blob] rows IH]; [done|].
  unfold candidates; cbn [omap list_omap fst snd].
  destruct (_ =? _)%nat; cbn; [by apply sublist_skip | by apply sublist_cons].
Qed.

Lemma candidates_NoDup (q : ndarray) (rows : list row) :
  NoDup rows.*1 → NoDup (candidates cosine q rows).*1.
Proof. intros H. exact (sublist_NoDup _ _ H (candidates_names_sublist q rows)). Qed.

Lemma candidates_nil_iff (q : ndarray) (rows : list row) :
  candidates cosine q rows = [] ↔
  Forall (λ r : row, length (words r.2) ≠ length q) rows.
Proof.
  induction rows as [|[name blob] rows IH]; [split; constructor|].
  unfold candidates; cbn [omap list_omap fst snd].
  destruct (Nat.eqb_spec (length (words blob)) (length q)) as [E|E].
  - split; [discriminate|]. intros H; inversion H; subst; cbn in *; done.
  - rewrite Forall_cons. fold (candidates cosine q rows). rewrite IH. cbn. tauto.
Qed.

Lemma step_scores (st : loop_state) (c : string * float) :
  all_scores (step st c) = <[c.1 := percent c.2]> (all_scores st).
Proof. unfold step. by destruct (ltb _ _). Qed.

Lemma fold_scores_notin (cs : list (string * float)) (st : loop_state) (n : string) :
  n ∉ cs.*1 → all_scores (foldl step st cs) !! n = all_scores st !! n.
Proof.
  revert st. induction cs as [|c cs IH]; intros st Hn; [done|].
  cbn in Hn. apply not_elem_of_cons in Hn as [Hne Hn].
  cbn [foldl]. rewrite IH by done. rewrite step_scores.
  by rewrite lookup_insert_ne.
Qed.

Lemma fold_scores_in (cs : list (string * float)) (st : loop_state) i n s :
  NoDup cs.*1 → cs !! i = Some (n, s) →
  all_scores (foldl step st cs) !! n = Some (percent s).
Proof.
  revert st i. induction cs as [|c cs IH]; intros st i Hnd Hi; [done|].
  cbn in Hnd. apply NoDup_cons in Hnd as [Hnotin Hnd].
  destruct i as [|i]; cbn in Hi.
  - injection Hi as ->. cbn [foldl].
    rewrite fold_scores_notin by done.
    rewrite step_scores. cbn. by rewrite lookup_insert_eq.
  - cbn [foldl]. by eapply IH.
Qed.

Lemma best_inv_step (cs : list (string * float)) (st : loop_state) (c : string * float) :
  best_inv cs st → best_inv (cs ++ [c]) (step st c).
Proof.
  destruct c as [n' s']. unfold best_inv, step; cbn [fst snd].
  destruct (best_match st) as [n|] eqn:Hbm.
  - intros (i & Hi & Hmin & Hfirst & Hinf).
    destruct (ltb s' (best_score st)) eqn:Hlt; cbn [best_match best_score].
    + exists (length cs). split; [by rewrite lookup_snoc_Some; right|].
      split; [|split].
      * intros j c Hj. apply lookup_snoc_Some in Hj as [[_ Hj]|[_ <-]].
        -- apply not_true_is_false; intros Hc.
           pose proof (ltb_trans _ _ _ Hc Hlt) as Hc'.
           by rewrite (Hmin _ _ Hj) in Hc'.
        -- apply ltb_irrefl.
      * intros j c Hjl Hj Hnum.
        apply lookup_snoc_Some in Hj as [[_ Hj]|[-> _]]; [|lia].
        eapply ltb_not_ltb_trans; eauto.
      * unfold below_inf in *. eapply ltb_trans; eauto.
    + exists i.
      pose proof (lookup_lt_Some _ _ _ Hi) as Hil.
      split; [by rewrite lookup_app_l|]. split; [|split; [|done]].
      * intros j c Hj. apply lookup_snoc_Some in Hj as [[_ Hj]|[_ <-]]; eauto.
      * intros j c Hjl Hj Hnum.
        apply lookup_snoc_Some in Hj as [[_ Hj]|[-> _]]; [eauto|lia].
  - intros [Hbs Hall]. rewrite Hbs.
    destruct (ltb s' inf) eqn:Hlt; cbn [best_match best_score].
    + exists (length cs). split; [by rewrite lookup_snoc_Some; right|].
      split; [|split; [|done]].
      * intros j c Hj. apply lookup_snoc_Some in Hj as [[_ Hj]|[_ <-]].
        -- apply not_true_is_false; intros Hc.
           pose proof (ltb_trans _ _ _ Hc Hlt) as Hc'.
           by rewrite (Hall _ _ Hj) in Hc'.
        -- apply ltb_irrefl.
      * intros j c Hjl Hj Hnum.
        apply lookup_snoc_Some in Hj as [[_ Hj]|[-> _]]; [|lia].
        eapply ltb_not_ltb_trans; eauto.
    + split; [done|].
      intros j c Hj. apply lookup_snoc_Some in Hj as [[_ Hj]|[_ <-]]; eauto.
Qed.

Lemma best_inv_fold (cs : list (string * float)) :
  best_inv cs (foldl step loop_init cs).
Proof.
  induction cs as [|c cs IH] using rev_ind.
  - split; [done|]. intros j c Hj. by rewrite lookup_nil in Hj.
  - rewrite foldl_app. cbn [foldl]. by apply best_inv_step.
Qed.

Lemma some_below_inf_has_best (cs : list (string * float)) :
  cs ≠ [] →
  forallb (λ c, below_inf c.2) cs = true →
  best_match (foldl step loop_init cs) ≠ None.
Proof.
  intros Hne Hall Hbm. pose proof (best_inv_fold cs) as Hinv.
  unfold best_inv in Hinv. rewrite Hbm in Hinv. destruct Hinv as [_ Hnone].
  destruct cs as [|c cs]; [done|].
  cbn in Hall. apply andb_true_iff in Hall as [Hc _].
  specialize (Hnone 0%nat c eq_refl). unfold below_inf in Hc. congruence.
Qed.

End Loop.

(** ** The decision of [identify_speaker] *)

Section Matching.
Import Float64 FloatOrder.
Variable cosine : ndarray → ndarray → float.

Lemma forallb_lookup {A} (f : A → bool) (l : list A) :
  forallb f l = true → ∀ j c, l !! j = Some c → f c = true.
Proof.
  intros H j c Hj. rewrite forallb_forall in H.
  apply H, list_elem_of_In. by eapply list_elem_of_lookup_2.
Qed.

Lemma leb_same_place_l x y z : key x = key y → leb x z = leb y z.
Proof. intros E. apply eq_true_iff_eq. rewrite !leb_key, E. done. Qed.

Lemma is_nan_key (x : float) : is_nan x = true → key x = None.
Proof. by destruct x as [[]|[]| |[] ? ?]. Qed.

(** The loop variables once an identity at the minimum distance exists;
    identities whose distance is NaN may be present. *)
Lemma best_at_minimum (cs : list (string * float)) i n0 d :
  cs !! i = Some (n0, d) →
  (∀ j c, cs !! j = Some c → leb d c.2 = true ∨ is_nan c.2 = true) →
  below_inf d = true →
  ∃ k n, best_match (foldl step loop_init cs) = Some n ∧
         cs !! k = Some (n, best_score (foldl step loop_init cs)) ∧
         (k ≤ i)%nat ∧
         key (best_score (foldl step loop_init cs)) = key d.
Proof.
  intros Hi Hd Hinf. pose proof (best_inv_fold cs) as Hinv.
  unfold best_inv in Hinv.
  destruct (best_match (foldl step loop_init cs)) as [n|].
  - destruct Hinv as (k & Hk & Hmin & Hfirst & Hb).
    set (b := best_score (foldl step loop_init cs)) in *.
    assert (Hbnum : key b ≠ None) by by destruct (ltb_is_number _ _ Hb).
    assert (Hdnum : key d ≠ None) by by destruct (ltb_is_number _ _ Hinf).
    assert (Hdb : leb d b = true).
    { destruct (Hd _ _ Hk) as [H|H]; [done|]. cbn in H.
      apply is_nan_key in H. congruence. }
    assert (Hkey : key b = key d).
    { symmetry. apply same_place; [done | exact (Hmin _ _ Hi)]. }
    exists k, n. repeat split; try done.
    destruct (le_lt_dec k i) as [|Hlt]; [done|exfalso].
    pose proof (Hfirst _ _ Hlt Hi Hdnum) as H1. cbn in H1.
    pose proof (leb_not_ltb _ _ Hdb) as H2. congruence.
  - destruct Hinv as [_ Hall]. pose proof (Hall _ _ Hi) as H. cbn in H.
    unfold below_inf in Hinf. congruence.
Qed.

Lemma match_speakers_decodes (q : ndarray) (rows : list row) :
  forallb decodes rows = true → rows ≠ [] →
  match_speakers cosine (Some q) rows
  = Return (verdict (foldl step loop_init (candidates cosine q rows))).
Proof.
  intros Hdec Hne. unfold match_speakers.
  rewrite for_each_fold by done. by destruct rows.
Qed.

Lemma verdict_scores (st : loop_state) :
  best_match st ≠ None → probabilities (verdict st) = all_scores st.
Proof.
  unfold verdict. destruct (best_match st); [|done].
  by destruct (ltb _ _).
Qed.

(** C1, amended. The threshold is met in the float32 of the score: the
    code's [0.7] is the float32 0x3F333333, just below the real 0.7.
    When an enrolled identity of the length of the query is at the minimum
    cosine distance [d] (no retained identity whose distance is a number
    is closer, and [d] is a number below +inf): if [d] is below that
    float32 the answer is "granted", names the best candidate in [person]
    and says "Welcome {name}"; if [d] is at or above it the answer is
    "denied" with "ACCESS DENIED" and no [person]; in both cases
    [probabilities] has the score of every retained identity. *)
Theorem threshold_verdict (q : ndarray) (rows : list row) (i : nat)
    (n0 : string) (d : float) :
  forallb decodes rows = true →
  NoDup rows.*1 →
  candidates cosine q rows !! i = Some (n0, d) →
  forallb (λ c, leb d c.2 || is_nan c.2) (candidates cosine q rows) = true →
  below_inf d = true →
  ∃ r k n d',
    match_speakers cosine (Some q) rows = Return r ∧
    candidates cosine q rows !! k = Some (n, d') ∧ (k ≤ i)%nat ∧ key d' = key d ∧
    (ltb d Float32.f0_7 = true →
       status r = "granted" ∧ message r = "Welcome " +:+ n ∧ person r = Some n) ∧
    (leb Float32.f0_7 d = true →
       status r = "denied" ∧ message r = "ACCESS DENIED" ∧ person r = None) ∧
    (∀ j n' s, candidates cosine q rows !! j = Some (n', s) →
               probabilities r !! n'
               = Some (format_2f (Float32.mul (Float32.sub Float32.f1 s) Float32.f100)
                       +:+ "%")).
Proof.
  intros Hdec Hnd Hi Hmin Hinf.
  assert (Hne : rows ≠ []).
  { intros ->. unfold candidates in Hi. cbn in Hi. by rewrite lookup_nil in Hi. }
  assert (Hmin' : ∀ j c, candidates cosine q rows !! j = Some c →
                         leb d c.2 = true ∨ is_nan c.2 = true).
  { intros j c Hj. apply orb_true_iff. exact (forallb_lookup _ _ Hmin _ _ Hj). }
  destruct (best_at_minimum _ _ _ _ Hi Hmin' Hinf)
    as (k & n & Hbm & Hk & Hki & Hkey).
  set (st := foldl step loop_init (candidates cosine q rows)) in *.
  exists (verdict st), k, n, (best_score st).
  split; [by apply match_speakers_decodes|].
  split; [done|]. split; [done|]. split; [done|].
  split; [|split].
  - intros Hlt. unfold verdict. rewrite Hbm.
    rewrite (ltb_same_place _ _ _ Hkey), Hlt. done.
  - intros Hle. apply leb_not_ltb in Hle.
    rewrite <- (ltb_same_place _ _ _ Hkey) in Hle.
    unfold verdict. rewrite Hbm, Hle. done.
  - intros j n' s Hj. rewrite verdict_scores by (rewrite Hbm; done).
    eapply fold_scores_in; [|done]. by apply candidates_NoDup.
Qed.

(** C3. For every list of rows that retains at least one identity of the
    length of the query, the distances of the retained identities being
    numbers below +inf: the loop ends with a best candidate that is one of
    the retained identities, [best_score] is its distance, no retained
    identity is closer (it is at the minimum distance), and every identity
    met before it is strictly farther, so that among identities at exactly
    the minimum distance the first one in scan order is kept. *)
Theorem best_candidate_first_minimum (q : ndarray) (rows : list row) :
  forallb decodes rows = true →
  candidates cosine q rows ≠ [] →
  forallb (λ c, below_inf c.2) (candidates cosine q rows) = true →
  ∃ st k n,
    for_each cosine (Some q) loop_init rows = Return st ∧
    best_match st = Some n ∧
    candidates cosine q rows !! k = Some (n, best_score st) ∧
    (∀ j c, candidates cosine q rows !! j = Some c → leb (best_score st) c.2 = true) ∧
    (∀ j c, (j < k)%nat → candidates cosine q rows !! j = Some c →
            ltb (best_score st) c.2 = true).
Proof.
  intros Hdec Hne Hnum.
  pose proof (forallb_lookup _ _ Hnum) as Hnum'.
  pose proof (best_inv_fold (candidates cosine q rows)) as Hinv.
  pose proof (some_below_inf_has_best _ Hne Hnum) as Hbm.
  unfold best_inv in Hinv.
  set (st := foldl step loop_init (candidates cosine q rows)) in *.
  destruct (best_match st) as [n|] eqn:En; [|done].
  destruct Hinv as (k & Hk & Hmin & Hfirst & _).
  assert (Hnumber : ∀ j c, candidates cosine q rows !! j = Some c → key c.2 ≠ None).
  { intros j c Hj. by destruct (ltb_is_number _ _ (Hnum' _ _ Hj)). }
  exists st, k, n.
  split; [by apply for_each_fold|]. split; [done|]. split; [done|]. split.
  - intros j c Hj. apply not_ltb_leb; [exact (Hnumber _ _ Hj) | | by eapply Hmin].
    exact (Hnumber _ _ Hk).
  - intros j c Hjk Hj. apply (Hfirst _ _ Hjk Hj). exact (Hnumber _ _ Hj).
Qed.

End Matching.

(** ** Answers with status "error" *)

Section MatchingErrors.
Import Float64 FloatOrder.
Variable cosine : ndarray → ndarray → float.

Lemma mismatch_not_candidate (q : ndarray) (rows : list row) name blob :
  NoDup rows.*1 → (name, blob) ∈ rows →
  length (words blob) ≠ length q →
  name ∉ (candidates cosine q rows).*1.
Proof.
  induction rows as [|[n1 b1] rows IH]; intros Hnd Hin Hlen.
  { by apply elem_of_nil in Hin. }
  cbn in Hnd. apply NoDup_cons in Hnd as [Hn1 Hnd].
  pose proof (candidates_names_sublist cosine q rows) as Hsub.
  unfold candidates; cbn [omap list_omap fst snd].
  fold (candidates cosine q rows).
  apply elem_of_cons in Hin as [Heq|Hin].
  - injection Heq as -> ->.
    destruct (Nat.eqb_spec (length (words b1)) (length q)); [done|].
    intros Hc. apply Hn1. eapply elem_of_sublist; eauto.
  - assert (name ≠ n1).
    { intros ->. apply Hn1. apply list_elem_of_fmap. by exists (n1, blob). }
    destruct (_ =? _)%nat; cbn; [|by apply IH].
    apply not_elem_of_cons. split; [done | by apply IH].
Qed.

Lemma verdict_error_iff (st : loop_state) :
  status (verdict st) = "error" ↔ best_match st = None.
Proof.
  unfold verdict. destruct (best_match st); [|done].
  destruct (ltb _ _); cbn; split; intros; discriminate.
Qed.

(** C2, amended. On rows that decode, with the distances of the retained
    identities below +inf, the comparison returns an answer (it does not
    raise, whatever the lengths): "error" with the message
    "No registered speakers found." when there is no row, "error" with
    "Could not compare voice with registered users." when every row has
    a vector whose length differs from the query's, each with an empty
    [probabilities], and "error" in no other case; a row whose length
    differs has no entry in [probabilities]. *)
Theorem error_cases (q : ndarray) (rows : list row) :
  forallb decodes rows = true →
  NoDup rows.*1 →
  forallb (λ c, below_inf c.2) (candidates cosine q rows) = true →
  ∃ r, match_speakers cosine (Some q) rows = Return r ∧
    (rows = [] →
       r = mk_response "error" "No registered speakers found." None None ∅) ∧
    (rows ≠ [] → Forall (λ r0 : row, length (words r0.2) ≠ length q) rows →
       r = mk_response "error"
             "Could not compare voice with registered users." None None ∅) ∧
    (status r = "error" ↔
       rows = [] ∨ Forall (λ r0 : row, length (words r0.2) ≠ length q) rows) ∧
    (∀ j name blob, rows !! j = Some (name, blob) →
       length (words blob) ≠ length q → probabilities r !! name = None).
Proof.
  intros Hdec Hnd Hnum.
  destruct (decide (rows = [])) as [->|Hne].
  { eexists; split; [reflexivity|]. repeat split; try done.
    by left. }
  rewrite match_speakers_decodes by done.
  set (st := foldl step loop_init (candidates cosine q rows)).
  exists (verdict st). split; [done|]. split; [done|]. split; [|split].
  - intros _ Hall. apply (candidates_nil_iff cosine) in Hall.
    subst st. by rewrite Hall.
  - rewrite verdict_error_iff. split.
    + intros Hbm. right. apply (candidates_nil_iff cosine).
      destruct (decide (candidates cosine q rows = [])) as [|Hc]; [done|].
      by destruct (some_below_inf_has_best _ Hc Hnum).
    + intros [?|Hall]; [done|]. apply (candidates_nil_iff cosine) in Hall.
      subst st. by rewrite Hall.
  - intros j name blob Hj Hlen.
    assert (Hnotin : name ∉ (candidates cosine q rows).*1).
    { eapply mismatch_not_candidate; eauto. by eapply list_elem_of_lookup_2. }
    destruct (best_match st) eqn:Hbm.
    + rewrite verdict_scores by (rewrite Hbm; done).
      subst st. by rewrite fold_scores_notin.
    + unfold verdict. rewrite Hbm. done.
Qed.

(** C4, amended. On rows that decode the comparison returns an answer.
    When its status is "error" it has no [confidence] and an empty
    [probabilities].  Otherwise the entry of every retained identity is
    the string [(1 - distance) * 100], computed in the float32 of the
    distance, printed with two decimals and followed by "%", and
    [confidence] is the same rendering of the distance of the best
    candidate, than which no retained identity is closer. *)
Theorem confidence_entries (q : ndarray) (rows : list row) :
  forallb decodes rows = true →
  NoDup rows.*1 →
  ∃ r, match_speakers cosine (Some q) rows = Return r ∧
    (status r = "error" → confidence r = None ∧ probabilities r = ∅) ∧
    (status r ≠ "error" →
       (∀ j n s, candidates cosine q rows !! j = Some (n, s) →
          probabilities r !! n
          = Some (format_2f (Float32.mul (Float32.sub Float32.f1 s) Float32.f100)
                  +:+ "%")) ∧
       ∃ k n d, candidates cosine q rows !! k = Some (n, d) ∧
          (∀ j c, candidates cosine q rows !! j = Some c → ltb c.2 d = false) ∧
          confidence r
          = Some (format_2f (Float32.mul (Float32.sub Float32.f1 d) Float32.f100)
                  +:+ "%")).
Proof.
  intros Hdec Hnd.
  destruct (decide (rows = [])) as [->|Hne].
  { eexists; split; [reflexivity|]. split; [done|]. intros H. by destruct H. }
  rewrite match_speakers_decodes by done.
  set (st := foldl step loop_init (candidates cosine q rows)).
  exists (verdict st). split; [done|].
  pose proof (best_inv_fold (candidates cosine q rows)) as Hinv.
  fold st in Hinv. unfold best_inv in Hinv.
  destruct (best_match st) as [n|] eqn:Hbm.
  - split.
    + intros He. apply verdict_error_iff in He. congruence.
    + intros _. destruct Hinv as (k & Hk & Hmin & _ & _). split.
      * intros j n' s Hj. rewrite verdict_scores by (rewrite Hbm; done).
        eapply fold_scores_in; [|done]. by apply candidates_NoDup.
      * exists k, n, (best_score st). split; [done|]. split; [done|].
        unfold verdict. rewrite Hbm. by destruct (ltb _ _).
  - split.
    + intros _. unfold verdict. by rewrite Hbm.
    + intros He. exfalso. apply He. by apply verdict_error_iff.
Qed.

End MatchingErrors.

(** ** The decision on sample rows *)

Ltac decide_by_computation := apply (bool_decide_unpack _); vm_compute; exact I.

Module MatchingRuns.
Import Float64 Scipy Sample.

(** Query [v_east] against alice (distance 0) and bob (distance 1): the
    minimum is alice's, below the threshold; and against bob alone, at
    distance 1, above it. *)
Lemma threshold_verdict_run :
  (∃ r k n d',
     match_speakers cosine_f32 (Some v_east) rows_two = Return r ∧
     candidates cosine_f32 v_east rows_two !! k = Some (n, d') ∧ (k ≤ 0)%nat ∧
     key d' = key Float32.zero ∧
     (ltb Float32.zero Float32.f0_7 = true →
        status r = "granted" ∧ message r = "Welcome " +:+ n ∧ person r = Some n) ∧
     (leb Float32.f0_7 Float32.zero = true →
        status r = "denied" ∧ message r = "ACCESS DENIED" ∧ person r = None) ∧
     (∀ j n' s, candidates cosine_f32 v_east rows_two !! j = Some (n', s) →
                probabilities r !! n'
                = Some (format_2f (Float32.mul (Float32.sub Float32.f1 s) Float32.f100)
                        +:+ "%"))) ∧
  (∃ r k n d',
     match_speakers cosine_f32 (Some v_east) [("bob", tobytes v_north)] = Return r ∧
     candidates cosine_f32 v_east [("bob", tobytes v_north)] !! k = Some (n, d') ∧
     (k ≤ 0)%nat ∧
     key d' = key Float32.f1 ∧
     (ltb Float32.f1 Float32.f0_7 = true →
        status r = "granted" ∧ message r = "Welcome " +:+ n ∧ person r = Some n) ∧
     (leb Float32.f0_7 Float32.f1 = true →
        status r = "denied" ∧ message r = "ACCESS DENIED" ∧ person r = None) ∧
     (∀ j n' s, candidates cosine_f32 v_east [("bob", tobytes v_north)] !! j
                = Some (n', s) →
                probabilities r !! n'
                = Some (format_2f (Float32.mul (Float32.sub Float32.f1 s) Float32.f100)
                        +:+ "%"))).
Proof.
  split.
  - apply (threshold_verdict cosine_f32 v_east rows_two 0 "alice" Float32.zero).
    + reflexivity.
    + decide_by_computation.
    + reflexivity.
    + reflexivity.
    + reflexivity.
  - apply (threshold_verdict cosine_f32 v_east [("bob", tobytes v_north)] 0 "bob"
             Float32.f1).
    + reflexivity.
    + decide_by_computation.
    + reflexivity.
    + reflexivity.
    + reflexivity.
Defined.

Example threshold_both_sides :
  status <$> (match match_speakers cosine_f32 (Some v_east) rows_two with
              | Return r => Some r | Raise _ => None end) = Some "granted" ∧
  status <$> (match match_speakers cosine_f32 (Some v_east) [("bob", tobytes v_north)] with
              | Return r => Some r | Raise _ => None end) = Some "denied".
Proof. split; vm_compute; reflexivity. Qed.

(** The distance of (269, 855, 25, 0) to (1, 0, 0, 0) is the float32
    11744051 / 2^24 = 0.699999988..., strictly less than 0.7, and the
    answer is "denied": the code compares with the float32 of 0.7, which
    is that same number. *)
Lemma threshold_is_float32 :
  candidates cosine_f32 v_edge rows_edge
  = [("alice", S754_finite false 11744051 (-24))] ∧
  (11744051 * 10 < 7 * 2 ^ 24)%Z ∧
  Float32.of_float64 Float64.f0_7 = S754_finite false 11744051 (-24) ∧
  ∃ r, match_speakers cosine_f32 (Some v_edge) rows_edge = Return r ∧
       status r = "denied" ∧ message r = "ACCESS DENIED" ∧ person r = None.
Proof.
  split; [vm_compute; reflexivity|]. split; [lia|].
  split; [vm_compute; reflexivity|].
  eexists. split; [vm_compute; reflexivity|]. done.
Qed.

(** Query [v_east] against bob (distance 1), alice and eve (both at
    distance 0): alice, met first, is kept. *)
Lemma best_candidate_first_minimum_run :
  ∃ st k n,
    for_each cosine_f32 (Some v_east) loop_init rows_tie = Return st ∧
    best_match st = Some n ∧
    candidates cosine_f32 v_east rows_tie !! k = Some (n, best_score st) ∧
    (∀ j c, candidates cosine_f32 v_east rows_tie !! j = Some c →
            leb (best_score st) c.2 = true) ∧
    (∀ j c, (j < k)%nat → candidates cosine_f32 v_east rows_tie !! j = Some c →
            ltb (best_score st) c.2 = true).
Proof.
  apply (best_candidate_first_minimum cosine_f32 v_east rows_tie).
  - reflexivity.
  - vm_compute. discriminate.
  - reflexivity.
Defined.

Example tie_keeps_first :
  best_match <$> (match for_each cosine_f32 (Some v_east) loop_init rows_tie with
                  | Return st => Some st
                  | Raise _ => None
                  end) = Some (Some "alice").
Proof. vm_compute. reflexivity. Qed.

(** The two "error" answers carry the messages of the source, which are
    not the ones "no registered identities" and "could not compare voice
    with registered users". *)
Lemma error_messages_of_the_source :
  (∃ r, match_speakers cosine_f32 (Some v_east) [] = Return r ∧
        status r = "error" ∧
        message r = "No registered speakers found." ∧
        message r ≠ "no registered identities") ∧
  (∃ r, match_speakers cosine_f32 (Some v_east) [("carol", tobytes v_short)]
        = Return r ∧
        status r = "error" ∧
        message r = "Could not compare voice with registered users." ∧
        message r ≠ "could not compare voice with registered users").
Proof.
  split; eexists; (split; [vm_compute; reflexivity|]); cbn;
    repeat split; discriminate.
Qed.

(** carol's vector has one element, the query two: carol is skipped. *)
Lemma error_cases_run :
  ∃ r, match_speakers cosine_f32 (Some v_east) rows_mixed = Return r ∧
    (rows_mixed = [] →
       r = mk_response "error" "No registered speakers found." None None ∅) ∧
    (rows_mixed ≠ [] →
     Forall (λ r0 : row, length (words r0.2) ≠ length v_east) rows_mixed →
       r = mk_response "error"
             "Could not compare voice with registered users." None None ∅) ∧
    (status r = "error" ↔
       rows_mixed = [] ∨
       Forall (λ r0 : row, length (words r0.2) ≠ length v_east) rows_mixed) ∧
    (∀ j name blob, rows_mixed !! j = Some (name, blob) →
       length (words blob) ≠ length v_east → probabilities r !! name = None).
Proof.
  apply (error_cases cosine_f32 v_east rows_mixed).
  - reflexivity.
  - decide_by_computation.
  - reflexivity.
Defined.

Example skipped_has_no_entry :
  match match_speakers cosine_f32 (Some v_east) rows_mixed with
  | Return r => (status r, probabilities r !! "carol", probabilities r !! "alice")
  | Raise _ => ("raised", None, None)
  end = ("granted", None, Some "100.00%").
Proof. vm_compute. reflexivity. Qed.

(** The percentage is computed in float32: for the distance with the bit
    pattern 0x3ED346DD, that is 13846237 / 2^25, the entry is 58.74%,
    where [(1 - d) * 100] is between 58.73 and 58.735 and binary64 would
    print 58.73%. *)
Example percent_in_float32 :
  to_float32 0x3ED346DD = S754_finite false 13846237 (-25) ∧
  percent (to_float32 0x3ED346DD) = "58.74%" ∧
  (5873 * 2 ^ 25 ≤ (2 ^ 25 - 13846237) * 10000)%Z ∧
  ((2 ^ 25 - 13846237) * 100000 < 58735 * 2 ^ 25)%Z ∧
  format_2f (mul (sub f1 (to_float32 0x3ED346DD)) f100) = "58.73".
Proof. repeat split; try (vm_compute; reflexivity); lia. Qed.

(** The confidence of a distance: [(1 - score) * 100]. *)
Lemma confidence_below_zero :
  candidates cosine_f32 v_east rows_far = [("mallory", Float32.f2)] ∧
  (∃ r, match_speakers cosine_f32 (Some v_east) rows_far = Return r ∧
        status r = "denied" ∧
        confidence r = Some "-100.00%" ∧
        probabilities r !! "mallory" = Some "-100.00%") ∧
  Float32.mul (Float32.sub Float32.f1 Float32.f2) Float32.f100
  = S754_finite true 13107200 (-17) ∧
  leb zero (Float32.mul (Float32.sub Float32.f1 Float32.f2) Float32.f100) = false.
Proof.
  split; [vm_compute; reflexivity|]. split.
  - eexists. split; [vm_compute; reflexivity|]. vm_compute. done.
  - vm_compute. done.
Qed.

Lemma confidence_entries_run :
  ∃ r, match_speakers cosine_f32 (Some v_east) rows_two = Return r ∧
    (status r = "error" → confidence r = None ∧ probabilities r = ∅) ∧
    (status r ≠ "error" →
       (∀ j n s, candidates cosine_f32 v_east rows_two !! j = Some (n, s) →
          probabilities r !! n
          = Some (format_2f (Float32.mul (Float32.sub Float32.f1 s) Float32.f100)
                  +:+ "%")) ∧
       ∃ k n d, candidates cosine_f32 v_east rows_two !! k = Some (n, d) ∧
          (∀ j c, candidates cosine_f32 v_east rows_two !! j = Some c →
                  ltb c.2 d = false) ∧
          confidence r
          = Some (format_2f (Float32.mul (Float32.sub Float32.f1 d) Float32.f100)
                  +:+ "%")).
Proof.
  apply (confidence_entries cosine_f32 v_east rows_two).
  - reflexivity.
  - decide_by_computation.
Defined.

End MatchingRuns.

(** ** Exceptions at the boundary of the two services *)

Section Boundary.
Variable ext : option (string → outcome (option ndarray)).
Variable cosine : ndarray → ndarray → Float64.float.

(** The call of the extractor leaves the database alone. *)
Lemma call_extract_embedding_db (file : string) (db : database) :
  (call_extract_embedding ext file db).2 = db.
Proof. unfold call_extract_embedding. by destruct ext. Qed.

Lemma identify_speaker_returns (file : string) (db : database) :
  ∃ r, identify_speaker ext cosine file db = (Return r, db).
Proof.
  unfold identify_speaker, try_except, bind, lift, ret, select_speakers.
  pose proof (call_extract_embedding_db file db) as Hdb.
  destruct (call_extract_embedding ext file db) as [[q|e] db1]; cbn in Hdb; subst db1.
  - destruct (speakers db) as [rows|]; [|by eauto].
    destruct (match_speakers cosine q rows); eauto.
  - eauto.
Qed.

(** When extraction and the scan succeed, the answer is the decision. *)
Lemma identify_speaker_decides (file : string) (db : database) q rows r :
  call_extract_embedding ext file db = (Return q, db) →
  speakers db = Some rows →
  match_speakers cosine q rows = Return r →
  identify_speaker ext cosine file db = (Return r, db).
Proof.
  intros Hq Hrows Hr. unfold identify_speaker, try_except, bind.
  rewrite Hq. unfold select_speakers. rewrite Hrows. unfold lift. by rewrite Hr.
Qed.

Lemma identify_speaker_extraction_error (file : string) (db : database) e :
  call_extract_embedding ext file db = (Raise e, db) →
  identify_speaker ext cosine file db
  = (Return (mk_response "error" ("Error during identification: " +:+ str e)
               None None ∅), db).
Proof.
  intros He. unfold identify_speaker, try_except, bind. by rewrite He.
Qed.

Lemma register_speaker_extraction_error (name file : string) (db : database) e :
  call_extract_embedding ext file db = (Raise e, db) →
  register_speaker ext name file db
  = (Raise (Exception ("Error in register_speaker: " +:+ str e)), db).
Proof.
  intros He. unfold register_speaker, try_except, bind. by rewrite He.
Qed.

(** What [register_speaker] can end with: a message, or the exception it
    builds in its handler. *)
Lemma register_speaker_outcomes (name file : string) (db : database) :
  (∃ msg db', register_speaker ext name file db = (Return msg, db')) ∨
  (∃ e, register_speaker ext name file db
        = (Raise (Exception ("Error in register_speaker: " +:+ str e)), db)).
Proof.
  unfold register_speaker, try_except, bind, ret, raise, execute_insert_or_replace.
  pose proof (call_extract_embedding_db file db) as Hdb.
  destruct (call_extract_embedding ext file db) as [[[emb|]|e] db1];
    cbn in Hdb; subst db1.
  - destruct (decide (size emb = 0)); [left; eauto|].
    destruct (speakers db); [left; eauto | right; eauto].
  - left; eauto.
  - right; eauto.
Qed.

(** C5, amended. [identify_speaker] never raises: it returns an answer for
    every file and database, and a failure of the extraction comes back as
    an answer with status "error", the message "Error during
    identification: " followed by the text of the exception, and an empty
    [probabilities].  [register_speaker] has no such conversion: a failure
    of the extraction leaves it by the exception
    [Exception("Error in register_speaker: ...")], and whenever it does not
    return a message it raises an exception of that form; the conversion
    to a status and a message is made by the [try] block of the route
    [/register], which always returns. *)
Theorem failures_at_the_boundary :
  (∀ file db, ∃ r, identify_speaker ext cosine file db = (Return r, db)) ∧
  (∀ file db e,
     call_extract_embedding ext file db = (Raise e, db) →
     identify_speaker ext cosine file db
     = (Return (mk_response "error" ("Error during identification: " +:+ str e)
                  None None ∅), db)) ∧
  (∀ name file db e,
     call_extract_embedding ext file db = (Raise e, db) →
     register_speaker ext name file db
     = (Raise (Exception ("Error in register_speaker: " +:+ str e)), db)) ∧
  (∀ name file db,
     (∃ msg db', register_speaker ext name file db = (Return msg, db')) ∨
     (∃ e, register_speaker ext name file db
           = (Raise (Exception ("Error in register_speaker: " +:+ str e)), db))) ∧
  (∀ name file db, ∃ st msg db',
     register_route_try ext name file db = (Return (st, msg), db') ∧
     (st = "success" ∨ st = "error")).
Proof.
  split; [apply identify_speaker_returns|].
  split; [apply identify_speaker_extraction_error|].
  split; [apply register_speaker_extraction_error|].
  split; [apply register_speaker_outcomes|].
  intros name file db. unfold register_route_try, try_except, bind, ret.
  destruct (register_speaker_outcomes name file db)
    as [(msg & db' & ->)|(e & ->)]; eauto 8.
Qed.

End Boundary.

(** ** Enrolment and the table *)

Section Enrolment.
Variable ext : option (string → outcome (option ndarray)).

(** C6, amended. When the extraction yields [None] or a vector of size 0,
    [register_speaker] ends with the message
    "Failed to extract voice features for {name}. Please try again." and
    writes nothing: the database after the call is the database before
    it. *)
Theorem failed_extraction_writes_nothing (name file : string) (db : database)
    (embedding : option ndarray) :
  call_extract_embedding ext file db = (Return embedding, db) →
  embedding = None ∨ (∃ emb, embedding = Some emb ∧ size emb = 0) →
  register_speaker ext name file db
  = (Return ("Failed to extract voice features for " +:+ name +:+ ". Please try again."),
     db).
Proof.
  intros Hcall Hdeg.
  unfold register_speaker, try_except, bind, ret. rewrite Hcall.
  destruct Hdeg as [->|(emb & -> & Hsz)]; [done|].
  by destruct (decide (size emb = 0)).
Qed.

(** What [register_speaker] does to the database. *)
Lemma register_speaker_db (name file : string) (db : database) :
  (register_speaker ext name file db).2 = db ∨
  ∃ t emb, speakers db = Some t ∧
           (register_speaker ext name file db).2
           = mk_db (Some (insert_or_replace name (tobytes emb) t)).
Proof.
  unfold register_speaker, try_except, bind, ret, raise, execute_insert_or_replace.
  pose proof (call_extract_embedding_db ext file db) as Hdb.
  destruct (call_extract_embedding ext file db) as [[[emb|]|e] db1];
    cbn in Hdb; subst db1; [|by left..].
  destruct (decide (size emb = 0)); [by left|].
  destruct (speakers db) as [t|] eqn:Ht; [|by left].
  right. by exists t, emb.
Qed.

Lemma register_speaker_stores (name file : string) (db : database) t emb :
  call_extract_embedding ext file db = (Return (Some emb), db) →
  size emb ≠ 0 → speakers db = Some t →
  register_speaker ext name file db
  = (Return ("Speaker '" +:+ name +:+ "' registered successfully."),
     mk_db (Some (insert_or_replace name (tobytes emb) t))).
Proof.
  intros Hcall Hsz Ht.
  unfold register_speaker, try_except, bind, ret, execute_insert_or_replace.
  rewrite Hcall. destruct (decide (size emb = 0)); [done|]. by rewrite Ht.
Qed.

End Enrolment.

(** *** [INSERT OR REPLACE] on the rows *)

Lemma filter_names_sublist (P : row → Prop) `{!∀ r, Decision (P r)} (t : list row) :
  sublist (filter P t).*1 t.*1.
Proof. apply fmap_sublist, sublist_filter. Qed.

Lemma insert_or_replace_NoDup (name : string) (blob : bytes) (t : list row) :
  NoDup t.*1 → NoDup (insert_or_replace name blob t).*1.
Proof.
  intros Hnd. unfold insert_or_replace. rewrite fmap_app. apply NoDup_app.
  split; [|split].
  - exact (sublist_NoDup _ _ Hnd (filter_names_sublist _ t)).
  - intros x Hx Hx'. cbn in Hx'. apply list_elem_of_singleton in Hx' as ->.
    apply list_elem_of_fmap in Hx as ([n b] & Hn & Hin).
    apply list_elem_of_filter in Hin as [Hne _]. cbn in *. congruence.
  - cbn. apply NoDup_singleton.
Qed.

Lemma stored_insert_or_replace (name : string) (blob : bytes) (t : list row) :
  stored name (insert_or_replace name blob t) = [blob].
Proof.
  unfold stored, insert_or_replace. rewrite filter_app.
  assert (H : filter (λ r : row, r.1 = name) (filter (λ r : row, r.1 ≠ name) t) = []).
  { induction t as [|[n b] t IH]; [done|].
    rewrite (filter_cons (λ r : row, r.1 ≠ name)).
    destruct (decide ((n, b).1 ≠ name)) as [Hne|]; [|done].
    rewrite filter_cons. destruct (decide ((n, b).1 = name)); [done|]. apply IH. }
  rewrite H, filter_cons, filter_nil. by rewrite decide_True.
Qed.

Lemma stored_insert_or_replace_ne (name other : string) (blob : bytes) (t : list row) :
  other ≠ name → stored other (insert_or_replace name blob t) = stored other t.
Proof.
  intros Hne. unfold stored, insert_or_replace. rewrite filter_app.
  rewrite (filter_cons _ (name, blob)), filter_nil.
  rewrite decide_False by (cbn; congruence).
  rewrite app_nil_r. f_equal.
  induction t as [|[n b] t IH]; [done|].
  rewrite (filter_cons (λ r : row, r.1 ≠ name)).
  destruct (decide ((n, b).1 ≠ name)) as [Hn|Hn].
  - rewrite !filter_cons. destruct (decide ((n, b).1 = other)); by rewrite IH.
  - rewrite filter_cons. destruct (decide ((n, b).1 = other)) as [E|]; [|done].
    cbn in *. exfalso. apply Hn. congruence.
Qed.

Lemma stored_absent (name : string) (t : list row) :
  name ∉ t.*1 → filter (λ r : row, r.1 = name) t = [].
Proof.
  induction t as [|[n b] t IH]; intros Hn; [done|].
  cbn in Hn. apply not_elem_of_cons in Hn as [Hne Hn].
  rewrite filter_cons. destruct (decide ((n, b).1 = name)) as [E|]; [|by apply IH].
  cbn in E. congruence.
Qed.

Lemma stored_at_most_one (name : string) (t : list row) :
  NoDup t.*1 → (length (stored name t) ≤ 1)%nat.
Proof.
  unfold stored. rewrite length_fmap.
  induction t as [|[n b] t IH]; intros Hnd; [cbn; lia|].
  cbn in Hnd. apply NoDup_cons in Hnd as [Hn Hnd].
  rewrite filter_cons. destruct (decide ((n, b).1 = name)) as [E|]; [|by apply IH].
  cbn in E. subst n. cbn.
  rewrite (stored_absent _ _ Hn). cbn. lia.
Qed.

(** *** Runs of enrolment requests *)

Section EnrolmentRuns.
Variable ext : option (string → outcome (option ndarray)).

Lemma register_speaker_unique (name file : string) (db : database) :
  unique_names db → unique_names (register_speaker ext name file db).2.
Proof.
  intros Hu. destruct (register_speaker_db ext name file db)
    as [->|(t & emb & Ht & ->)]; [done|].
  unfold unique_names in *. rewrite Ht in Hu. cbn.
  by apply insert_or_replace_NoDup.
Qed.

Lemma register_speaker_keeps_table (name file : string) (db : database) :
  speakers db ≠ None → speakers (register_speaker ext name file db).2 ≠ None.
Proof.
  intros Hs. destruct (register_speaker_db ext name file db)
    as [->|(t & emb & Ht & ->)]; done.
Qed.

Lemma register_speaker_other (name other file : string) (db : database) :
  other ≠ name →
  stored other (table (register_speaker ext name file db).2) = stored other (table db).
Proof.
  intros Hne. destruct (register_speaker_db ext name file db)
    as [->|(t & emb & Ht & ->)]; [done|].
  unfold table. rewrite Ht. cbn. by apply stored_insert_or_replace_ne.
Qed.

Lemma enroll_all_app (a b : list (string * string)) (db : database) :
  enroll_all ext (a ++ b) db = enroll_all ext b (enroll_all ext a db).
Proof.
  revert db. induction a as [|[n f] a IH]; intros db; [done|]. cbn. apply IH.
Qed.

Lemma enroll_all_unique (reqs : list (string * string)) (db : database) :
  unique_names db → unique_names (enroll_all ext reqs db).
Proof.
  revert db. induction reqs as [|[n f] reqs IH]; intros db Hu; [done|].
  cbn. apply IH. by apply register_speaker_unique.
Qed.

Lemma enroll_all_keeps_table (reqs : list (string * string)) (db : database) :
  speakers db ≠ None → speakers (enroll_all ext reqs db) ≠ None.
Proof.
  revert db. induction reqs as [|[n f] reqs IH]; intros db Hs; [done|].
  cbn. apply IH. by apply register_speaker_keeps_table.
Qed.

Lemma enroll_all_other (reqs : list (string * string)) (name : string) (db : database) :
  name ∉ reqs.*1 →
  stored name (table (enroll_all ext reqs db)) = stored name (table db).
Proof.
  revert db. induction reqs as [|[n f] reqs IH]; intros db Hn; [done|].
  cbn in Hn. apply not_elem_of_cons in Hn as [Hne Hn].
  cbn. rewrite IH by done. by apply register_speaker_other.
Qed.

(** C7. From a database whose table exists with one row per name, after
    any run of enrolment requests the names are still unique, so that each
    name has at most one stored fingerprint; and the fingerprint stored
    for a name is the one of its latest successful enrolment: whatever was
    enrolled before, once [name] is enrolled with [emb] and only other
    names follow, exactly [emb.tobytes()] is stored for [name]. *)
Theorem one_fingerprint_per_name (before after : list (string * string))
    (name file : string) (emb : ndarray) (db : database) :
  unique_names db →
  speakers db ≠ None →
  (∀ db0, call_extract_embedding ext file db0 = (Return (Some emb), db0)) →
  size emb ≠ 0 →
  name ∉ after.*1 →
  unique_names (enroll_all ext (before ++ (name, file) :: after) db) ∧
  stored name (table (enroll_all ext (before ++ (name, file) :: after) db))
  = [tobytes emb] ∧
  (∀ other,
     (length (stored other
                (table (enroll_all ext (before ++ (name, file) :: after) db))) ≤ 1)%nat).
Proof.
  intros Hu Hs Hcall Hsz Hafter.
  assert (Hu' : unique_names (enroll_all ext (before ++ (name, file) :: after) db))
    by by apply enroll_all_unique.
  split; [done|]. split.
  - rewrite enroll_all_app. cbn [enroll_all].
    rewrite enroll_all_other by done.
    pose proof (enroll_all_keeps_table before db Hs) as Hs1.
    destruct (speakers (enroll_all ext before db)) as [t|] eqn:Ht; [|done].
    rewrite (register_speaker_stores ext name file _ t emb (Hcall _) Hsz Ht).
    cbn. apply stored_insert_or_replace.
  - intros other. unfold unique_names, table in *.
    destruct (speakers (enroll_all ext _ db)) as [t|];
      [by apply stored_at_most_one | cbn; lia].
Qed.

End EnrolmentRuns.

(** ** The source as given: no binding for [extract_embedding] *)

(** C10. With no binding for the name [extract_embedding], which both
    [register_speaker] and [identify_speaker] call: [identify_speaker]
    returns, for every file and database, the answer with status "error",
    the text of the NameError and an empty [probabilities];
    [register_speaker] raises for every request and leaves the database as
    it was, so no run of enrolments changes it; and [remove_noise] is not
    among the functions reached from the routes and the main block. *)
Theorem source_as_given (cosine : ndarray → ndarray → Float64.float) :
  CallGraph.defined CallGraph.F_extract_embedding = false ∧
  CallGraph.mem CallGraph.F_extract_embedding
    (CallGraph.calls CallGraph.F_identify_speaker) = true ∧
  CallGraph.mem CallGraph.F_extract_embedding
    (CallGraph.calls CallGraph.F_register_speaker) = true ∧
  (∀ file db,
     identify_speaker None cosine file db
     = (Return (mk_response "error"
                  "Error during identification: name 'extract_embedding' is not defined"
                  None None ∅), db)) ∧
  (∀ name file db,
     register_speaker None name file db
     = (Raise (Exception
                 "Error in register_speaker: name 'extract_embedding' is not defined"),
        db)) ∧
  (∀ reqs db, enroll_all None reqs db = db) ∧
  CallGraph.mem CallGraph.F_remove_noise CallGraph.invoked = false.
Proof.
  split; [done|]. split; [done|]. split; [done|].
  split; [done|]. split; [done|]. split; [|by vm_compute].
  intros reqs. induction reqs as [|[n f] reqs IH]; intros db; [done|].
  cbn. apply IH.
Qed.

(** ** The services on sample requests *)

Module ServiceRuns.
Import Float64 Scipy Sample.

(** A file the extractor cannot open: [register_speaker] raises. *)
Lemma register_speaker_raises :
  register_speaker (Some extractor) "alice" "missing.wav" db_two
  = (Raise (Exception "Error in register_speaker: could not open the file"), db_two) ∧
  is_return (register_speaker (Some extractor) "alice" "missing.wav" db_two).1 = false.
Proof. split; reflexivity. Qed.

Lemma identify_speaker_converts :
  identify_speaker (Some extractor) cosine_f32 "missing.wav" db_two
  = (Return (mk_response "error"
               ("Error during identification: " +:+ str (ValueError "could not open the file"))
               None None ∅), db_two).
Proof.
  apply (proj1 (proj2 (failures_at_the_boundary (Some extractor) cosine_f32))).
  reflexivity.
Defined.

(** The message of a failed extraction is the one of the source, not
    "failed to extract voice features for alice; please try again". *)
Lemma failed_extraction_message :
  ∃ msg, register_speaker (Some extractor) "alice" "silence.wav" db_two
         = (Return msg, db_two) ∧
         msg = "Failed to extract voice features for alice. Please try again." ∧
         msg ≠ "failed to extract voice features for alice; please try again".
Proof. eexists. split; [reflexivity|]. split; [reflexivity | discriminate]. Qed.

Lemma failed_extraction_none_run :
  register_speaker (Some extractor) "alice" "silence.wav" db_two
  = (Return ("Failed to extract voice features for " +:+ "alice" +:+ ". Please try again."),
     db_two) ∧
  register_speaker (Some extractor) "alice" "empty.wav" db_two
  = (Return ("Failed to extract voice features for " +:+ "alice" +:+ ". Please try again."),
     db_two).
Proof.
  split.
  - apply (failed_extraction_writes_nothing (Some extractor) "alice" "silence.wav"
             db_two None).
    + reflexivity.
    + left. reflexivity.
  - apply (failed_extraction_writes_nothing (Some extractor) "alice" "empty.wav"
             db_two (Some [])).
    + reflexivity.
    + right. exists []. split; reflexivity.
Defined.

Example failed_extraction_empty_run :
  register_speaker (Some extractor) "alice" "empty.wav" db_two
  = (Return "Failed to extract voice features for alice. Please try again.", db_two).
Proof. reflexivity. Qed.

(** alice east, bob north, alice again west, then bob east: what is stored
    for alice is the west vector. *)
Lemma one_fingerprint_per_name_run :
  let reqs := ([("alice", "east.wav"); ("bob", "north.wav")]
               ++ ("alice", "west.wav") :: [("bob", "east.wav")])%list in
  unique_names (enroll_all (Some extractor) reqs db_empty) ∧
  stored "alice" (table (enroll_all (Some extractor) reqs db_empty))
  = [tobytes v_west] ∧
  (∀ other,
     (length (stored other (table (enroll_all (Some extractor) reqs db_empty))) ≤ 1)%nat).
Proof.
  apply (one_fingerprint_per_name (Some extractor)
           [("alice", "east.wav"); ("bob", "north.wav")] [("bob", "east.wav")]
           "alice" "west.wav" v_west db_empty).
  - cbn. constructor.
  - discriminate.
  - intros db0. reflexivity.
  - discriminate.
  - decide_by_computation.
Defined.

Example enrolments_table :
  enroll_all (Some extractor)
    [("alice", "east.wav"); ("bob", "north.wav"); ("alice", "west.wav")] db_empty
  = mk_db (Some [("bob", tobytes v_north); ("alice", tobytes v_west)]).
Proof. reflexivity. Qed.

(** Without [initialize_db] the table is missing and enrolment raises. *)
Example register_speaker_no_table :
  register_speaker (Some extractor) "alice" "east.wav" fresh
  = (Raise (Exception "Error in register_speaker: no such table: speakers"), fresh).
Proof. reflexivity. Qed.

End ServiceRuns.


(** ** Noise reduction *)

Section ConditioningFacts.
Context {R C : Type} (np : numlib R C).





(** [filtfilt] refuses a signal that is not longer than its padding. *)
Lemma filtfilt_short (b a x : list R) :
  (length x ≤ 3 * max (length a) (length b))%nat →
  filtfilt np b a x
  = Raise (ValueError
             ("The length of the input vector x must be greater than padlen, which is "
              +:+ Float64.dec (Z.of_nat (3 * max (length a) (length b))) +:+ ".")).
Proof.
  intros H. unfold filtfilt.
  destruct (Nat.leb_spec (length x) (3 * max (length a) (length b))); [done|lia].
Qed.


Lemma remove_noise_design_error (audio : list R) (sr : Z) (e : exn) :
  butter_highpass np 100 sr 5 = Raise e → remove_noise np audio sr = Raise e.
Proof.
  intros H. unfold remove_noise, apply_highpass_filter. by rewrite H.
Qed.

Lemma remove_noise_short_input (audio : list R) (sr : Z) (b a : list R) :
  butter_highpass np 100 sr 5 = Return (b, a) →
  (length audio ≤ 3 * max (length a) (length b))%nat →
  remove_noise np audio sr
  = Raise (ValueError
             ("The length of the input vector x must be greater than padlen, which is "
              +:+ Float64.dec (Z.of_nat (3 * max (length a) (length b))) +:+ ".")).
Proof.
  intros Hd Hlen. unfold remove_noise, apply_highpass_filter.
  rewrite Hd. simpl. by rewrite filtfilt_short.
Qed.

(** A sample rate of 0 stops at the division by the Nyquist frequency. *)
Lemma remove_noise_zero_rate (audio : list R) :
  ∃ e, remove_noise np audio 0 = Raise e ∧ exn_class e = "ZeroDivisionError".
Proof. eexists. split; reflexivity. Qed.







End ConditioningFacts.

(** ** Noise reduction on sample signals *)

Module ConditioningRuns.
Import Sample.


(** A sample rate of 0, one of 200 (a critical frequency of 1) and a
    negative one stop in the filter design. *)
Example remove_noise_design_refused :
  (∃ e, remove_noise backend audio_120 0 = Raise e ∧
        exn_class e = "ZeroDivisionError") ∧
  remove_noise backend audio_120 200
  = Raise (ValueError "Digital filter critical frequencies must be 0 < Wn < 1") ∧
  remove_noise backend audio_120 (-16000)
  = Raise (ValueError "Digital filter critical frequencies must be 0 < Wn < 1").
Proof.
  split; [eexists; split; vm_compute; reflexivity|].
  split; vm_compute; reflexivity.
Qed.

(** The design is refused for every rate from -300 to 200 and accepted
    for the rates from 201 to 1200 and the usual audio rates. *)
Example design_accepted_rates :
  forallb (λ sr, negb (is_return (butter_highpass backend 100 sr 5))) (seqZ (-300) 501)
  = true ∧
  forallb (λ sr, is_return (butter_highpass backend 100 sr 5))
    (seqZ 201 1000 ++ [8000; 11025; 16000; 22050; 32000; 44100; 48000; 96000])%Z
  = true.
Proof. split; vm_compute; reflexivity. Qed.

(** 201 is the lowest sample rate the design accepts. *)
Example remove_noise_lowest_rate :
  is_return (butter_highpass backend 100 200 5) = false ∧
  is_return (butter_highpass backend 100 201 5) = true ∧
  length <$> (match remove_noise backend audio_120 201 with
              | Return out => Some out | Raise _ => None end) = Some 120%nat.
Proof. repeat split; vm_compute; reflexivity. Qed.


(** At rate 220 the inverse STFT of the sample backend returns 119 samples
    and a zero is appended; at rate 16000 the 120 samples are less than
    half a second and the gated signal comes back. *)
Example remove_noise_pads_and_skips :
  (length <$> (match remove_noise backend audio_120 220 with
               | Return out => Some out | Raise _ => None end)) = Some 120%nat ∧
  (last <$> (match remove_noise backend audio_120 220 with
             | Return out => Some out | Raise _ => None end)) = Some (Some 0%Z) ∧
  match apply_highpass_filter backend audio_120 100 16000 5 with
  | Return filtered =>
      remove_noise backend audio_120 16000 = Return (noise_gate backend <$> filtered)
  | Raise _ => False
  end.
Proof. repeat split; vm_compute; reflexivity. Qed.


(** The same signal at 16 kHz is 7.5 ms long: the stage is skipped. *)
Example spectral_subtraction_skipped :
  ∃ filtered : list Z,
    filtfilt backend [100; -100; 0; 0; 0; 0]%Z [100; 0; 0; 0; 0; 0]%Z audio_120
    = Return filtered ∧
    remove_noise backend audio_120 16000
    = Return ((λ y, if (Z.abs y <? 1)%Z then 0%Z else y) <$> filtered).
Proof. eexists. split; vm_compute; reflexivity. Qed.

End ConditioningRuns.

(** ** The source as given, on sample requests *)

Module SourceRuns.
Import Float64 Scipy Sample.

Example identify_speaker_as_given :
  (identify_speaker None cosine_f32 "east.wav" db_two).1
  = Return (mk_response "error"
              "Error during identification: name 'extract_embedding' is not defined"
              None None ∅).
Proof. reflexivity. Qed.

Example functions_reached :
  CallGraph.invoked
  = [CallGraph.F_initialize_db; CallGraph.F_main;
     CallGraph.F_identify_speaker; CallGraph.F_classify;
     CallGraph.F_extract_embedding; CallGraph.F_register_speaker;
     CallGraph.F_register; CallGraph.F_record; CallGraph.F_index].
Proof. reflexivity. Qed.

End SourceRuns.

(** ** Blobs written by [register_speaker] read back *)

Lemma word_high_bits (w n : Z) : word_ok w → (32 ≤ n)%Z → Z.testbit w n = false.
Proof.
  intros [Hlo Hhi] Hn. destruct (Z.eq_dec w 0%Z) as [->|Hne]; [apply Z.bits_0|].
  apply Z.bits_above_log2; [done|].
  assert (Z.log2 w < 32)%Z by (apply Z.log2_lt_pow2; lia). lia.
Qed.

Lemma le32_words (w : Z) (rest : bytes) :
  word_ok w → words (le32 w ++ rest) = w :: words rest.
Proof.
  intros Hw. cbn [le32 app words]. f_equal.
  apply Z.bits_inj'. intros n Hn.
  rewrite !Z.lor_spec, !Z.shiftl_spec by lia.
  rewrite !Z.land_spec. change 255%Z with (Z.ones 8).
  rewrite !Z.testbit_ones by lia.
  destruct (Z.lt_ge_cases n 32) as [Hlt|Hge].
  - repeat match goal with
           | |- context [(?a <=? ?b)%Z] => destruct (Z.leb_spec a b)
           | |- context [(?a <? ?b)%Z] => destruct (Z.ltb_spec a b)
           end; try lia;
      cbn [andb orb];
      rewrite ?andb_false_r, ?andb_true_r, ?orb_false_r; cbn [orb];
      rewrite ?Z.shiftr_spec by lia; try reflexivity; f_equal; lia.
  - rewrite (word_high_bits w n Hw Hge).
    repeat match goal with
           | |- context [(?a <=? ?b)%Z] => destruct (Z.leb_spec a b)
           | |- context [(?a <? ?b)%Z] => destruct (Z.ltb_spec a b)
           end; try lia;
      cbn [andb orb]; rewrite ?andb_false_r; reflexivity.
Qed.

Lemma words_tobytes (a : ndarray) : Forall word_ok a → words (tobytes a) = a.
Proof.
  induction 1 as [|w a Hw _ IH]; [done|].
  unfold tobytes. cbn [flat_map]. fold (tobytes a).
  rewrite le32_words by done. by rewrite IH.
Qed.

Lemma tobytes_length (a : ndarray) : length (tobytes a) = (4 * length a)%nat.
Proof.
  induction a as [|w a IH]; [done|].
  unfold tobytes in *. cbn [flat_map]. rewrite length_app, IH. cbn. lia.
Qed.

Lemma tobytes_decodes (name : string) (a : ndarray) : decodes (name, tobytes a) = true.
Proof.
  unfold decodes. cbn [snd]. rewrite tobytes_length.
  apply Z.eqb_eq. rewrite Nat2Z.inj_mul. change (Z.of_nat 4) with 4%Z.
  by rewrite Z.mul_comm, Z.mod_mul.
Qed.

(** X1. Round trip of a stored vector: for float32 bit patterns (each in
    the range of 32 bits), [np.frombuffer(a.tobytes(), dtype=np.float32)]
    returns [a]: what [register_speaker] stores is what the comparison
    reads back. *)
Lemma frombuffer_tobytes (a : ndarray) :
  Forall word_ok a → frombuffer (tobytes a) = Return a.
Proof.
  intros Ha. unfold frombuffer.
  pose proof (tobytes_decodes "" a) as Hd. unfold decodes in Hd. cbn [snd] in Hd.
  rewrite Hd. by rewrite words_tobytes.
Qed.

(** Every blob of the table decodes, once enrolment is what fills it. *)
Section StoredBlobs.
Variable ext : option (string → outcome (option ndarray)).

Lemma filter_decodes (P : row → Prop) `{!∀ r, Decision (P r)} (t : list row) :
  forallb decodes t = true → forallb decodes (filter P t) = true.
Proof.
  induction t as [|r t IH]; [done|]. cbn [forallb].
  intros [Hr Ht]%andb_true_iff. rewrite filter_cons.
  destruct (decide (P r)); [|by apply IH].
  cbn [forallb]. by rewrite Hr, IH.
Qed.

Lemma insert_or_replace_decodes (name : string) (a : ndarray) (t : list row) :
  forallb decodes t = true →
  forallb decodes (insert_or_replace name (tobytes a) t) = true.
Proof.
  intros Ht. unfold insert_or_replace. rewrite forallb_app.
  rewrite filter_decodes by done. cbn [forallb].
  by rewrite tobytes_decodes.
Qed.

Lemma register_speaker_decodes (name file : string) (db : database) :
  forallb decodes (table db) = true →
  forallb decodes (table (register_speaker ext name file db).2) = true.
Proof.
  intros Hd. destruct (register_speaker_db ext name file db)
    as [->|(t & emb & Ht & ->)]; [done|].
  unfold table in *. rewrite Ht in Hd. cbn in *.
  by apply insert_or_replace_decodes.
Qed.

Lemma enroll_all_decodes (reqs : list (string * string)) (db : database) :
  forallb decodes (table db) = true →
  forallb decodes (table (enroll_all ext reqs db)) = true.
Proof.
  revert db. induction reqs as [|[n f] reqs IH]; intros db Hd; [done|].
  cbn. apply IH. by apply register_speaker_decodes.
Qed.

End StoredBlobs.

(* ===================================================================== *)
(** * Further properties of the comparison *)
(* ===================================================================== *)

Section ScanOrder.
Import Float64 FloatOrder.
Variable cosine : ndarray → ndarray → float.

Lemma leb_ltb_trans x y z : leb x y = true → ltb y z = true → ltb x z = true.
Proof.
  rewrite leb_key, !ltb_key. destruct (key x), (key y), (key z); try tauto.
  apply key_le_lt_trans.
Qed.

(** Floats at the same place of the order print the same percentage. *)
Lemma percent_same_place x y : key x = key y → key x ≠ None → percent x = percent y.
Proof.
  destruct x as [[]|[]| |[] mx ex], y as [[]|[]| |[] my ey]; cbn;
    intros E Hx; try done; try discriminate;
    injection E as E1 E2; f_equal; f_equal; try lia.
  all: f_equal; lia.
Qed.

Lemma lookup_elem_index {A} (l : list A) (x : A) : x ∈ l → ∃ i, l !! i = Some x.
Proof. apply list_elem_of_lookup_1. Qed.

Lemma perm_elem {A} (l l' : list A) (x : A) : l ≡ₚ l' → x ∈ l → x ∈ l'.
Proof. intros Hp Hx. by rewrite <- Hp. Qed.

(** The loop variables do not see the order of the retained identities,
    except for the name kept among ties. *)
Lemma best_none_perm (cs cs' : list (string * float)) :
  cs ≡ₚ cs' →
  best_match (foldl step loop_init cs) = None →
  best_match (foldl step loop_init cs') = None.
Proof.
  intros Hp Hnone.
  pose proof (best_inv_fold cs) as Hinv. unfold best_inv in Hinv.
  rewrite Hnone in Hinv. destruct Hinv as [_ Hall].
  pose proof (best_inv_fold cs') as Hinv'. unfold best_inv in Hinv'.
  destruct (best_match (foldl step loop_init cs')) as [n'|]; [|done].
  destruct Hinv' as (i & Hi & _ & _ & Hinf).
  apply list_elem_of_lookup_2 in Hi. apply (perm_elem _ _ _ (symmetry Hp)) in Hi.
  apply lookup_elem_index in Hi as [j Hj].
  specialize (Hall _ _ Hj). cbn in Hall. unfold below_inf in Hinf. congruence.
Qed.

Lemma best_score_perm (cs cs' : list (string * float)) :
  cs ≡ₚ cs' →
  best_match (foldl step loop_init cs) ≠ None →
  key (best_score (foldl step loop_init cs))
  = key (best_score (foldl step loop_init cs')) ∧
  key (best_score (foldl step loop_init cs)) ≠ None.
Proof.
  intros Hp Hsome.
  assert (Hsome' : best_match (foldl step loop_init cs') ≠ None).
  { intros H. apply Hsome. by apply (best_none_perm cs' cs). }
  pose proof (best_inv_fold cs) as Hinv. unfold best_inv in Hinv.
  pose proof (best_inv_fold cs') as Hinv'. unfold best_inv in Hinv'.
  destruct (best_match (foldl step loop_init cs)) as [n|]; [|done].
  destruct (best_match (foldl step loop_init cs')) as [n'|]; [|done].
  destruct Hinv as (i & Hi & Hmin & _ & Hinf).
  destruct Hinv' as (i' & Hi' & Hmin' & _ & Hinf').
  set (b := best_score (foldl step loop_init cs)) in *.
  set (b' := best_score (foldl step loop_init cs')) in *.
  assert (Hb : key b ≠ None) by by destruct (ltb_is_number _ _ Hinf).
  assert (Hb' : key b' ≠ None) by by destruct (ltb_is_number _ _ Hinf').
  split; [|done].
  apply list_elem_of_lookup_2 in Hi, Hi'.
  apply (perm_elem _ _ _ Hp) in Hi. apply (perm_elem _ _ _ (symmetry Hp)) in Hi'.
  apply lookup_elem_index in Hi as [j Hj], Hi' as [j' Hj'].
  pose proof (Hmin' _ _ Hj) as H1. pose proof (Hmin _ _ Hj') as H2. cbn in H1, H2.
  apply same_place; [|done]. by apply not_ltb_leb.
Qed.

Lemma scores_perm (cs cs' : list (string * float)) :
  NoDup cs.*1 → cs ≡ₚ cs' →
  all_scores (foldl step loop_init cs) = all_scores (foldl step loop_init cs').
Proof.
  intros Hnd Hp.
  assert (Hnd' : NoDup cs'.*1) by by rewrite <- Hp.
  apply map_eq. intros n.
  destruct (decide (n ∈ cs.*1)) as [Hin|Hnotin].
  - apply list_elem_of_fmap in Hin as ([n0 s] & -> & Hin). cbn.
    pose proof (perm_elem _ _ _ Hp Hin) as Hin'.
    apply lookup_elem_index in Hin as [i Hi], Hin' as [i' Hi'].
    by rewrite (fold_scores_in cs _ _ _ _ Hnd Hi), (fold_scores_in cs' _ _ _ _ Hnd' Hi').
  - rewrite fold_scores_notin by done.
    rewrite fold_scores_notin; [done|]. by rewrite <- Hp.
Qed.

Lemma forallb_perm {A} (f : A → bool) (l l' : list A) :
  l ≡ₚ l' → forallb f l = true → forallb f l' = true.
Proof.
  intros Hp H. rewrite forallb_forall in *. intros x Hx.
  apply H. apply list_elem_of_In. rewrite Hp. by apply list_elem_of_In.
Qed.

(** X8. On rows that decode and carry distinct names, the status, the
    confidence and the probabilities of the answer do not depend on the
    order in which the table is scanned; the whole answer is the same
    unless it is "granted", where only the name among identities at the
    same minimum distance can differ. *)
Theorem scan_order_independent (q : ndarray) (rows rows' : list row) :
  forallb decodes rows = true →
  NoDup rows.*1 →
  rows ≡ₚ rows' →
  ∃ r r',
    match_speakers cosine (Some q) rows = Return r ∧
    match_speakers cosine (Some q) rows' = Return r' ∧
    status r = status r' ∧
    confidence r = confidence r' ∧
    probabilities r = probabilities r' ∧
    (status r ≠ "granted" → r = r').
Proof.
  intros Hdec Hnd Hp.
  destruct (decide (rows = [])) as [->|Hne].
  { apply Permutation_nil in Hp. subst rows'. eexists _, _.
    split; [reflexivity|]. split; [reflexivity|]. done. }
  assert (Hne' : rows' ≠ []).
  { intros ->. symmetry in Hp. by apply Permutation_nil in Hp. }
  pose proof (forallb_perm _ _ _ Hp Hdec) as Hdec'.
  rewrite !match_speakers_decodes by done.
  assert (Hcp : candidates cosine q rows ≡ₚ candidates cosine q rows').
  { unfold candidates. by apply omap_Permutation. }
  pose proof (candidates_NoDup cosine q rows Hnd) as Hcnd.
  pose proof (scores_perm _ _ Hcnd Hcp) as Hscores.
  set (st := foldl step loop_init (candidates cosine q rows)) in *.
  set (st' := foldl step loop_init (candidates cosine q rows')) in *.
  exists (verdict st), (verdict st'). split; [done|]. split; [done|].
  destruct (best_match st) as [n|] eqn:Hbm.
  - assert (Hs : best_match st ≠ None) by by rewrite Hbm.
    destruct (best_score_perm _ _ Hcp Hs) as [Hkey Hnum].
    fold st st' in Hkey, Hnum.
    assert (Hs' : best_match st' ≠ None).
    { intros H. apply Hs. by apply (best_none_perm _ _ (symmetry Hcp)). }
    destruct (best_match st') as [n'|] eqn:Hbm'; [|done].
    unfold verdict. rewrite Hbm, Hbm'.
    rewrite (ltb_same_place _ _ Float32.f0_7 Hkey).
    rewrite (percent_same_place _ _ Hkey Hnum), Hscores.
    destruct (ltb (best_score st') Float32.f0_7); cbn; repeat split; done.
  - pose proof (best_none_perm _ _ Hcp Hbm) as Hbm'. fold st' in Hbm'.
    unfold verdict. rewrite Hbm, Hbm'. done.
Qed.

(** X9. In an answer that is not "error", on rows that decode and carry
    distinct names, [probabilities] has an entry for a name exactly when
    that name is a retained identity, the entry being the percentage of
    its distance ([(1 - d) * 100] evaluated in float32, printed with two
    decimals and "%"); and when the answer names a [person], its
    [confidence] is that person's entry. *)
Theorem probabilities_are_the_retained (q : ndarray) (rows : list row) :
  forallb decodes rows = true →
  NoDup rows.*1 →
  ∃ r, match_speakers cosine (Some q) rows = Return r ∧
    (status r ≠ "error" →
       (∀ n s, probabilities r !! n = Some s ↔
               ∃ d, (n, d) ∈ candidates cosine q rows ∧
                    s = format_2f (Float32.mul (Float32.sub Float32.f1 d) Float32.f100)
                        +:+ "%") ∧
       (∀ n, person r = Some n → probabilities r !! n = confidence r)).
Proof.
  intros Hdec Hnd.
  destruct (decide (rows = [])) as [->|Hne].
  { eexists. split; [reflexivity|]. intros H. by destruct H. }
  rewrite match_speakers_decodes by done.
  pose proof (candidates_NoDup cosine q rows Hnd) as Hcnd.
  pose proof (best_inv_fold (candidates cosine q rows)) as Hinv.
  unfold best_inv in Hinv.
  set (cs := candidates cosine q rows) in *.
  set (st := foldl step loop_init cs) in *.
  exists (verdict st). split; [done|]. intros Hst.
  destruct (best_match st) as [n0|] eqn:Hbm.
  2:{ exfalso. apply Hst. unfold verdict. by rewrite Hbm. }
  destruct Hinv as (k & Hk & _).
  assert (Hprob : probabilities (verdict st) = all_scores st).
  { apply verdict_scores. by rewrite Hbm. }
  split.
  - intros n s. rewrite Hprob. split.
    + intros Hl. destruct (decide (n ∈ cs.*1)) as [Hin|Hnotin].
      * apply list_elem_of_fmap in Hin as ([n1 d] & -> & Hin). cbn in *.
        pose proof Hin as Hin'. apply lookup_elem_index in Hin' as [i Hi].
        unfold st in Hl. rewrite (fold_scores_in cs _ _ _ _ Hcnd Hi) in Hl.
        exists d. split; [done|]. injection Hl as <-. reflexivity.
      * unfold st in Hl. rewrite fold_scores_notin in Hl by done. done.
    + intros (d & Hin & ->). apply lookup_elem_index in Hin as [i Hi].
      unfold st. by eapply fold_scores_in.
  - intros n Hp. rewrite Hprob. unfold verdict in *. rewrite Hbm in *.
    destruct (ltb (best_score st) Float32.f0_7); cbn in *; [|done].
    injection Hp as <-. unfold st. by eapply fold_scores_in.
Qed.

(** X4. A distance that is not below +inf (NaN, or +inf) never sets the
    best candidate: when no retained identity has a distance below +inf,
    the answer is the "error" answer "Could not compare voice with
    registered users." with an empty [probabilities], although identities
    of the right length were scored. *)
Theorem no_number_no_match (q : ndarray) (rows : list row) :
  forallb decodes rows = true →
  rows ≠ [] →
  forallb (λ c, negb (below_inf c.2)) (candidates cosine q rows) = true →
  match_speakers cosine (Some q) rows
  = Return (mk_response "error" "Could not compare voice with registered users."
              None None ∅).
Proof.
  intros Hdec Hne Hnan. rewrite match_speakers_decodes by done.
  pose proof (best_inv_fold (candidates cosine q rows)) as Hinv.
  unfold best_inv in Hinv. unfold verdict.
  destruct (best_match _) as [n|]; [|done].
  destruct Hinv as (i & Hi & _ & _ & Hinf).
  pose proof (forallb_lookup _ _ Hnan _ _ Hi) as H. cbn in H.
  rewrite Hinf in H. done.
Qed.

End ScanOrder.

(* ===================================================================== *)
(** * Further properties of the two services *)
(* ===================================================================== *)

Section ServiceEdges.
Import Float64 FloatOrder.
Variable ext : option (string → outcome (option ndarray)).
Variable cosine : ndarray → ndarray → float.

Lemma loop_body_decodes (q : ndarray) (st : loop_state) (r : row) :
  decodes r = true → ∃ st', loop_body cosine (Some q) st r = Return st'.
Proof.
  destruct r as [name blob]. unfold decodes, loop_body, frombuffer. cbn [snd].
  intros ->. destruct (negb _); [eauto|].
  cbv zeta. destruct (ltb _ _); eauto.
Qed.

Lemma for_each_undecodable (q : ndarray) (st : loop_state)
    (pre post : list row) (name : string) (blob : bytes) :
  forallb decodes pre = true →
  decodes (name, blob) = false →
  for_each cosine (Some q) st (pre ++ (name, blob) :: post)
  = Raise (ValueError "buffer size must be a multiple of element size").
Proof.
  intros Hpre Hbad. revert st.
  induction pre as [|r pre IH]; intros st.
  - cbn [app for_each loop_body]. unfold frombuffer.
    unfold decodes in Hbad. cbn [snd] in Hbad. by rewrite Hbad.
  - cbn [forallb] in Hpre. apply andb_true_iff in Hpre as [Hr Hpre].
    cbn [app for_each].
    destruct (loop_body_decodes q st r Hr) as [st' ->]. by apply IH.
Qed.

(** X5. A stored blob whose size is not a multiple of four bytes aborts the
    whole identification, unlike a blob of another length: whatever the
    other rows hold, the answer is the "error" answer built by the handler
    from numpy's ValueError, with an empty [probabilities]. *)
Theorem undecodable_blob_aborts (file : string) (db : database) (q : ndarray)
    (pre post : list row) (name : string) (blob : bytes) :
  call_extract_embedding ext file db = (Return (Some q), db) →
  speakers db = Some (pre ++ (name, blob) :: post) →
  forallb decodes pre = true →
  decodes (name, blob) = false →
  identify_speaker ext cosine file db
  = (Return (mk_response "error"
               "Error during identification: buffer size must be a multiple of element size"
               None None ∅), db).
Proof.
  intros Hcall Hrows Hpre Hbad.
  unfold identify_speaker, try_except, bind, lift, ret, select_speakers.
  rewrite Hcall, Hrows. unfold match_speakers.
  rewrite (for_each_undecodable q loop_init pre post name blob Hpre Hbad).
  by destruct pre.
Qed.

(** X6. [identify_speaker] has no test for an extraction that yields
    [None]: with an empty table the answer is still "No registered
    speakers found.", and as soon as the table has a first row that
    decodes, the comparison of shapes raises and the answer is the
    "error" answer carrying the AttributeError. *)
Theorem none_embedding_in_identification (file : string) (db : database) :
  call_extract_embedding ext file db = (Return None, db) →
  (speakers db = Some [] →
     identify_speaker ext cosine file db
     = (Return (mk_response "error" "No registered speakers found." None None ∅), db)) ∧
  (∀ r rows, speakers db = Some (r :: rows) → decodes r = true →
     identify_speaker ext cosine file db
     = (Return (mk_response "error"
                  "Error during identification: 'NoneType' object has no attribute 'shape'"
                  None None ∅), db)).
Proof.
  intros Hcall.
  unfold identify_speaker, try_except, bind, lift, ret, select_speakers.
  rewrite Hcall. split.
  - intros ->. done.
  - intros [name blob] rows -> Hr. unfold decodes in Hr. cbn [snd] in Hr.
    unfold match_speakers. cbn [for_each loop_body]. unfold frombuffer.
    by rewrite Hr.
Qed.

Lemma candidates_app (q : ndarray) (a b : list row) :
  candidates cosine q (a ++ b) = candidates cosine q a ++ candidates cosine q b.
Proof. unfold candidates. apply omap_app. Qed.

(** X7. Enrolment followed by verification.  On a table whose rows decode
    and carry distinct names, once [name] is enrolled with the vector
    [emb], an identification whose sample has a vector [q] of the same
    length returns an answer in which, unless it is "error", [name] has
    the entry of the distance [d = cosine(q, emb)] computed on the vector
    read back from the blob, [(1 - d) * 100] in float32 with two decimals;
    the answer is not "error" when [d] is below +inf, and it is "granted"
    when [d] is below the float32 of 0.7, the number the code compares
    with; on a table that was empty it is then granted to [name]. *)
Theorem enrol_then_verify (name file1 file2 : string) (emb q : ndarray)
    (t : list row) (db : database) :
  speakers db = Some t →
  NoDup t.*1 →
  forallb decodes t = true →
  (∀ db0, call_extract_embedding ext file1 db0 = (Return (Some emb), db0)) →
  (∀ db0, call_extract_embedding ext file2 db0 = (Return (Some q), db0)) →
  size emb ≠ 0 →
  Forall word_ok emb →
  length q = length emb →
  ∃ r,
    identify_speaker ext cosine file2 (register_speaker ext name file1 db).2
    = (Return r, (register_speaker ext name file1 db).2) ∧
    (status r ≠ "error" →
       probabilities r !! name
       = Some (format_2f (Float32.mul (Float32.sub Float32.f1 (cosine q emb)) Float32.f100)
               +:+ "%")) ∧
    (below_inf (cosine q emb) = true → status r ≠ "error") ∧
    (ltb (cosine q emb) Float32.f0_7 = true → status r = "granted") ∧
    (t = [] → ltb (cosine q emb) Float32.f0_7 = true →
       person r = Some name ∧ message r = "Welcome " +:+ name).
Proof.
  intros Ht Hnd Hdec Hcall1 Hcall2 Hsz Hok Hlen.
  rewrite (register_speaker_stores ext name file1 db t emb (Hcall1 _) Hsz Ht).
  cbn [snd].
  set (rows := insert_or_replace name (tobytes emb) t).
  set (db' := mk_db (Some rows)).
  assert (Hdec' : forallb decodes rows = true).
  { unfold rows, insert_or_replace. rewrite forallb_app. cbn [forallb].
    rewrite tobytes_decodes, andb_true_r. rewrite forallb_forall in *.
    intros x Hx. apply Hdec. apply list_elem_of_In in Hx.
    apply list_elem_of_filter in Hx as [_ Hx]. by apply list_elem_of_In. }
  assert (Hnd' : NoDup rows.*1) by by apply insert_or_replace_NoDup.
  assert (Hne : rows ≠ []).
  { unfold rows, insert_or_replace. by destruct (filter _ t). }
  set (cs0 := candidates cosine q (filter (λ r : row, r.1 ≠ name) t)).
  assert (Hcs : candidates cosine q rows = cs0 ++ [(name, cosine q emb)]).
  { unfold rows, insert_or_replace. rewrite candidates_app. f_equal.
    unfold candidates. cbn [omap list_omap fst snd].
    rewrite (words_tobytes emb Hok).
    by rewrite <- Hlen, Nat.eqb_refl. }
  exists (verdict (foldl step loop_init (candidates cosine q rows))).
  split.
  { apply (identify_speaker_decides ext cosine file2 db' (Some q) rows);
      [apply Hcall2 | done | by apply match_speakers_decodes]. }
  pose proof (best_inv_fold (candidates cosine q rows)) as Hinv.
  unfold best_inv in Hinv.
  assert (Hlast : candidates cosine q rows !! length cs0 = Some (name, cosine q emb)).
  { rewrite Hcs. by apply list_lookup_middle. }
  set (st := foldl step loop_init (candidates cosine q rows)) in *.
  assert (Hbelow : below_inf (cosine q emb) = true → best_match st ≠ None).
  { intros Hb Hnone. rewrite Hnone in Hinv. destruct Hinv as [_ Hall].
    specialize (Hall _ _ Hlast). cbn in Hall. unfold below_inf in Hb. congruence. }
  split; [|split; [|split]].
  - intros Hst.
    assert (Hbm : best_match st ≠ None).
    { intros Hnone. apply Hst. unfold verdict. by rewrite Hnone. }
    rewrite verdict_scores by done. unfold st.
    eapply fold_scores_in; [|exact Hlast]. by apply candidates_NoDup.
  - intros Hb Herr. apply (Hbelow Hb).
    unfold verdict in Herr. destruct (best_match st); [|done].
    by destruct (ltb (best_score st) Float32.f0_7).
  - intros Hlt.
    assert (Hb : below_inf (cosine q emb) = true).
    { unfold below_inf. eapply ltb_trans; [exact Hlt | reflexivity]. }
    specialize (Hbelow Hb). unfold verdict.
    destruct (best_match st) as [n|]; [|done].
    destruct Hinv as (k & Hk & Hmin & _ & Hinf).
    specialize (Hmin _ _ Hlast). cbn in Hmin.
    assert (Hle : leb (best_score st) (cosine q emb) = true).
    { apply not_ltb_leb; [| |done].
      - by destruct (ltb_is_number _ _ Hb).
      - by destruct (ltb_is_number _ _ Hinf). }
    by rewrite (leb_ltb_trans _ _ _ Hle Hlt).
  - intros -> Hlt.
    assert (Hb : ltb (cosine q emb) inf = true).
    { eapply ltb_trans; [exact Hlt | reflexivity]. }
    unfold st. rewrite Hcs. unfold cs0. cbn.
    unfold step, verdict. cbn. rewrite Hb. cbn. by rewrite Hlt.
Qed.

(** X2. A table filled by enrolment never sends identification down the
    exception path: from a database whose table exists with rows that
    decode, after any run of enrolment requests every row still decodes,
    and an identification whose sample yields a vector returns "granted",
    "denied", or one of the two "error" answers of the comparison. *)
Theorem enrolled_table_compares (reqs : list (string * string)) (file : string)
    (q : ndarray) (db : database) :
  speakers db ≠ None →
  forallb decodes (table db) = true →
  (∀ db0, call_extract_embedding ext file db0 = (Return (Some q), db0)) →
  forallb decodes (table (enroll_all ext reqs db)) = true ∧
  ∃ r,
    identify_speaker ext cosine file (enroll_all ext reqs db)
    = (Return r, enroll_all ext reqs db) ∧
    (status r = "granted" ∨ status r = "denied" ∨
     r = mk_response "error" "No registered speakers found." None None ∅ ∨
     r = mk_response "error" "Could not compare voice with registered users."
           None None ∅).
Proof.
  intros Hs Hdec Hcall.
  pose proof (enroll_all_decodes ext reqs db Hdec) as Hdec'.
  pose proof (enroll_all_keeps_table ext reqs db Hs) as Hs'.
  split; [done|].
  set (db' := enroll_all ext reqs db) in *.
  unfold table in Hdec'.
  destruct (speakers db') as [rows|] eqn:Hrows; [|done]. cbn in Hdec'.
  destruct (decide (rows = [])) as [->|Hne].
  - eexists. split.
    + apply (identify_speaker_decides ext cosine file db' (Some q) []);
        [apply Hcall | done | reflexivity].
    + by right; right; left.
  - exists (verdict (foldl step loop_init (candidates cosine q rows))). split.
    + apply (identify_speaker_decides ext cosine file db' (Some q) rows);
        [apply Hcall | done | by apply match_speakers_decodes].
    + unfold verdict. destruct (best_match _); [|by right; right; right].
      destruct (ltb _ _); [by left | by right; left].
Qed.

(** X3. The table is only created by [initialize_db], which the module
    calls in its main block.  On a database without the table,
    [identify_speaker] answers "error" with SQLite's "no such table:
    speakers" and [register_speaker] raises and stores nothing, even for a
    good sample; after [initialize_db] the same identification answers
    "No registered speakers found." and the same enrolment stores its
    row.  [initialize_db] leaves an existing table as it is. *)
Theorem table_needs_initialize_db (name file : string) (emb : ndarray)
    (db : database) :
  speakers db = None →
  (∀ db0, call_extract_embedding ext file db0 = (Return (Some emb), db0)) →
  size emb ≠ 0 →
  identify_speaker ext cosine file db
  = (Return (mk_response "error" "Error during identification: no such table: speakers"
               None None ∅), db) ∧
  register_speaker ext name file db
  = (Raise (Exception "Error in register_speaker: no such table: speakers"), db) ∧
  identify_speaker ext cosine file (initialize_db db).2
  = (Return (mk_response "error" "No registered speakers found." None None ∅),
     (initialize_db db).2) ∧
  register_speaker ext name file (initialize_db db).2
  = (Return ("Speaker '" +:+ name +:+ "' registered successfully."),
     mk_db (Some [(name, tobytes emb)])) ∧
  (∀ db1, speakers db1 ≠ None → (initialize_db db1).2 = db1) ∧
  (initialize_db (initialize_db db).2).2 = (initialize_db db).2.
Proof.
  intros Hnone Hcall Hsz.
  assert (Hinit : (initialize_db db).2 = mk_db (Some [])).
  { unfold initialize_db, create_table_if_not_exists. cbn. by rewrite Hnone. }
  split; [|split; [|split; [|split; [|split]]]].
  - unfold identify_speaker, try_except, bind, lift, ret, select_speakers.
    by rewrite Hcall, Hnone.
  - unfold register_speaker, try_except, bind, ret, raise, execute_insert_or_replace.
    rewrite Hcall. destruct (decide (size emb = 0)); [done|]. by rewrite Hnone.
  - rewrite Hinit.
    apply (identify_speaker_decides ext cosine file _ (Some emb) []);
      [apply Hcall | done | done].
  - rewrite Hinit.
    by rewrite (register_speaker_stores ext name file (mk_db (Some [])) [] emb
                  (Hcall _) Hsz eq_refl).
  - intros db1 Hs. unfold initialize_db, create_table_if_not_exists. cbn.
    by destruct (speakers db1).
  - rewrite Hinit. done.
Qed.

End ServiceEdges.

(* ===================================================================== *)
(** * The routes *)
(* ===================================================================== *)

Section RouteFacts.
Import Float64 FloatOrder.
Variable ext : option (string → outcome (option ndarray)).
Variable cosine : ndarray → ndarray → float.
Variable path_exists : string → Z → bool.

Lemma wait_time_below (k : nat) :
  (k ≤ 10)%nat → ltb (wait_time_after k) max_wait = (k <? 10)%nat.
Proof.
  intros Hk. do 11 (destruct k as [|k]; [vm_compute; reflexivity|]). lia.
Qed.

Lemma wait_loop_spec (fuel k : nat) (file : string) (slept : Z) :
  (k ≤ 10)%nat → (11 ≤ fuel + k)%nat →
  ∃ j : nat,
    (k + j ≤ 10)%nat ∧
    wait_loop path_exists fuel file (wait_time_after k) slept
    = Some (wait_time_after (k + j), (slept + Z.of_nat j)%Z) ∧
    (∀ i : nat, (i < j)%nat → path_exists file (slept + Z.of_nat i)%Z = false) ∧
    (path_exists file (slept + Z.of_nat j)%Z = true ∨ (k + j)%nat = 10%nat).
Proof.
  revert k slept. induction fuel as [|fuel IH]; intros k slept Hk Hfuel; [lia|].
  cbn [wait_loop].
  destruct (path_exists file slept) eqn:Hnow.
  { exists 0%nat. rewrite Nat.add_0_r, Z.add_0_r.
    split; [done|]. split; [done|]. split; [lia|]. by left. }
  rewrite (wait_time_below k Hk).
  destruct (Nat.ltb_spec k 10) as [Hlt|Hge].
  - destruct (IH (S k) (slept + 1)%Z ltac:(lia) ltac:(lia))
      as (j & Hj & Hloop & Hnone & Hend).
    exists (S j). split; [lia|]. split; [|split].
    + cbn [wait_time_after] in Hloop. rewrite Hloop. f_equal. f_equal.
      * f_equal. lia.
      * lia.
    + intros i Hi. destruct i as [|i].
      * by rewrite Z.add_0_r.
      * replace (slept + Z.of_nat (S i))%Z with (slept + 1 + Z.of_nat i)%Z by lia.
        apply Hnone. lia.
    + replace (slept + Z.of_nat (S j))%Z with (slept + 1 + Z.of_nat j)%Z by lia.
      destruct Hend as [?|?]; [by left | right; lia].
  - exists 0%nat. rewrite Nat.add_0_r, Z.add_0_r.
    split; [lia|]. split; [done|]. split; [lia|]. right. lia.
Qed.

(** X10. The wait for the recording ends: with fuel for eleven rounds the
    loop is left after [j <= 10] sleeps of half a second, [wait_time]
    being [j] times 0.5 added up in floating point; the file was absent at
    each of the [j] earlier polls, and the loop is left either because the
    file is there at that poll or because ten sleeps (five seconds, which
    the sum reaches exactly) have passed. *)
Theorem wait_loop_bounded (fuel : nat) (file : string) (slept : Z) :
  (11 ≤ fuel)%nat →
  wait_time_after 10 = max_wait ∧
  ∃ j : nat,
    (j ≤ 10)%nat ∧
    wait_loop path_exists fuel file zero slept
    = Some (wait_time_after j, (slept + Z.of_nat j)%Z) ∧
    (∀ i : nat, (i < j)%nat → path_exists file (slept + Z.of_nat i)%Z = false) ∧
    (path_exists file (slept + Z.of_nat j)%Z = true ∨ j = 10%nat).
Proof.
  intros Hfuel. split; [vm_compute; reflexivity|].
  destruct (wait_loop_spec fuel 0 file slept ltac:(lia) ltac:(lia))
    as (j & Hj & Hloop & Hnone & Hend).
  exists j. cbn in *. done.
Qed.

Lemma first_seen_unique (file : string) (slept : Z) (j j0 : nat) :
  (∀ i : nat, (i < j)%nat → path_exists file (slept + Z.of_nat i)%Z = false) →
  path_exists file (slept + Z.of_nat j)%Z = true →
  (j ≤ 10)%nat →
  (∀ i : nat, (i < j0)%nat → path_exists file (slept + Z.of_nat i)%Z = false) →
  path_exists file (slept + Z.of_nat j0)%Z = true ∨ j0 = 10%nat →
  j0 = j.
Proof.
  intros Hnone Hseen Hj Hnone0 Hend.
  destruct (lt_eq_lt_dec j0 j) as [[Hlt| ->]|Hgt]; [|done|].
  - destruct Hend as [Hs| ->]; [|lia]. by rewrite (Hnone _ Hlt) in Hs.
  - by rewrite (Hnone0 _ Hgt) in Hseen.
Qed.

Lemma never_seen_ten (file : string) (slept : Z) (j0 : nat) :
  (∀ i : nat, (i ≤ 10)%nat → path_exists file (slept + Z.of_nat i)%Z = false) →
  (j0 ≤ 10)%nat →
  path_exists file (slept + Z.of_nat j0)%Z = true ∨ j0 = 10%nat →
  j0 = 10%nat.
Proof.
  intros Hnever Hj [Hs| ->]; [|done]. by rewrite (Hnever _ Hj) in Hs.
Qed.

Lemma register_route_try_returns (name file : string) (db : database) :
  ∃ st msg db', register_route_try ext name file db = (Return (st, msg), db').
Proof.
  unfold register_route_try, try_except, bind, ret.
  destruct (register_speaker_outcomes ext name file db)
    as [(msg & db' & ->)|(e & ->)]; eauto.
Qed.

(** X11. The route [/register], with fuel for eleven rounds of its wait.
    It always answers with a status and a message, never by an exception.
    Without a name (absent or empty) it answers "No name provided for
    registration" at once, without polling or sleeping.  With a name: when
    the file is absent at all eleven polls it answers "Recording file not
    found" after ten sleeps and leaves the database alone; when the file
    is first there at poll [j], it sleeps [j] half-seconds and two more
    seconds and answers what the [try] block around [register_speaker]
    gives. *)
Theorem register_route_outcomes (fuel : nat) (file : string)
    (name : option string) (w : world) :
  (11 ≤ fuel)%nat →
  (∃ st msg w', register ext path_exists fuel file name w = Some (Return (st, msg), w')) ∧
  (name = None ∨ name = Some "" →
     register ext path_exists fuel file name w
     = Some (Return ("error", "No name provided for registration"), w)) ∧
  (∀ nm, name = Some nm → nm ≠ "" →
     ((∀ i : nat, (i ≤ 10)%nat → path_exists file (w_slept w + Z.of_nat i)%Z = false) →
        register ext path_exists fuel file name w
        = Some (Return ("error", "Recording file not found"),
                mk_world (w_db w) (w_slept w + 10))) ∧
     (∀ j : nat,
        (j ≤ 10)%nat →
        (∀ i : nat, (i < j)%nat → path_exists file (w_slept w + Z.of_nat i)%Z = false) →
        path_exists file (w_slept w + Z.of_nat j)%Z = true →
        register ext path_exists fuel file name w
        = Some ((register_route_try ext nm file (w_db w)).1,
                mk_world (register_route_try ext nm file (w_db w)).2
                         (w_slept w + Z.of_nat j + 4)))).
Proof.
  intros Hfuel.
  destruct (wait_loop_spec fuel 0 file (w_slept w) ltac:(lia) ltac:(lia))
    as (j0 & Hj0 & Hloop & Hnone0 & Hend0).
  cbn [wait_time_after Nat.add] in Hloop, Hj0, Hend0.
  split; [|split].
  - unfold register. destruct name as [nm|]; [|by destruct w; eauto].
    destruct (decide (nm = "")); [by destruct w; eauto|].
    rewrite Hloop. destruct (negb _); [eauto|].
    destruct (register_route_try_returns nm file (w_db w)) as (st & msg & db' & ->).
    eauto.
  - intros [->| ->]; reflexivity.
  - intros nm -> Hnm. unfold register.
    destruct (decide (nm = "")); [done|]. rewrite Hloop. split.
    + intros Hnever.
      pose proof (never_seen_ten file _ j0 Hnever Hj0 Hend0) as ->.
      rewrite (Hnever 10%nat) by lia. done.
    + intros j Hj Hnone Hseen.
      pose proof (first_seen_unique file _ j j0 Hnone Hseen Hj Hnone0 Hend0) as ->.
      rewrite Hseen. cbn [negb].
      by destruct (register_route_try ext nm file (w_db w)).
Qed.

(** X12. The route [/classify], with fuel for eleven rounds of its wait.
    It always answers, never by an exception, and never changes the
    database.  Without a file path (absent or empty) it answers "No file
    path provided" at once.  With a path: when the file is absent at all
    eleven polls it answers "Recording file not found" after ten sleeps;
    when the file is first there at poll [j], it sleeps [j] half-seconds
    and two more seconds and answers what [identify_speaker] returns. *)
Theorem classify_route_outcomes (fuel : nat) (file_path : option string) (w : world) :
  (11 ≤ fuel)%nat →
  (∃ r slept', classify ext cosine path_exists fuel file_path w
               = Some (Return r, mk_world (w_db w) slept') ∧
               (w_slept w ≤ slept' ≤ w_slept w + 14)%Z) ∧
  (file_path = None ∨ file_path = Some "" →
     classify ext cosine path_exists fuel file_path w
     = Some (Return (mk_response "error" "No file path provided" None None ∅), w)) ∧
  (∀ fp, file_path = Some fp → fp ≠ "" →
     ((∀ i : nat, (i ≤ 10)%nat → path_exists fp (w_slept w + Z.of_nat i)%Z = false) →
        classify ext cosine path_exists fuel file_path w
        = Some (Return (mk_response "error" "Recording file not found" None None ∅),
                mk_world (w_db w) (w_slept w + 10))) ∧
     (∀ (j : nat) r,
        (j ≤ 10)%nat →
        (∀ i : nat, (i < j)%nat → path_exists fp (w_slept w + Z.of_nat i)%Z = false) →
        path_exists fp (w_slept w + Z.of_nat j)%Z = true →
        identify_speaker ext cosine fp (w_db w) = (Return r, w_db w) →
        classify ext cosine path_exists fuel file_path w
        = Some (Return r, mk_world (w_db w) (w_slept w + Z.of_nat j + 4)))).
Proof.
  intros Hfuel. split; [|split].
  - unfold classify. destruct file_path as [fp|].
    2:{ exists (mk_response "error" "No file path provided" None None ∅), (w_slept w).
        split; [by destruct w | lia]. }
    destruct (decide (fp = "")).
    { exists (mk_response "error" "No file path provided" None None ∅), (w_slept w).
      split; [by destruct w | lia]. }
    destruct (wait_loop_spec fuel 0 fp (w_slept w) ltac:(lia) ltac:(lia))
      as (j0 & Hj0 & Hloop & _ & _).
    cbn [wait_time_after Nat.add] in Hloop, Hj0. rewrite Hloop.
    destruct (negb _).
    + eexists _, _. split; [reflexivity | lia].
    + destruct (identify_speaker_returns ext cosine fp (w_db w)) as [r ->].
      eexists _, _. split; [reflexivity | lia].
  - intros [->| ->]; reflexivity.
  - intros fp -> Hfp. unfold classify.
    destruct (decide (fp = "")); [done|].
    destruct (wait_loop_spec fuel 0 fp (w_slept w) ltac:(lia) ltac:(lia))
      as (j0 & Hj0 & Hloop & Hnone0 & Hend0).
    cbn [wait_time_after Nat.add] in Hloop, Hj0, Hend0. rewrite Hloop. split.
    + intros Hnever.
      pose proof (never_seen_ten fp _ j0 Hnever Hj0 Hend0) as ->.
      rewrite (Hnever 10%nat) by lia. done.
    + intros j r Hj Hnone Hseen Hid.
      pose proof (first_seen_unique fp _ j j0 Hnone Hseen Hj Hnone0 Hend0) as ->.
      rewrite Hseen. cbn [negb]. by rewrite Hid.
Qed.

End RouteFacts.


(** X13. An enrolment is local to its name and all or nothing: whatever
    the extraction does, what is stored under any other name is the same
    before and after [register_speaker], and when [register_speaker]
    raises the database is as it was. *)
Theorem enrolment_is_local (ext : option (string → outcome (option ndarray)))
    (name file : string) (db : database) :
  (∀ other, other ≠ name →
     stored other (table (register_speaker ext name file db).2)
     = stored other (table db)) ∧
  (∀ e, (register_speaker ext name file db).1 = Raise e →
        (register_speaker ext name file db).2 = db).
Proof.
  split.
  - intros other Hne. by apply register_speaker_other.
  - intros e He.
    destruct (register_speaker_outcomes ext name file db)
      as [(msg & db' & Hr)|(e' & Hr)]; rewrite Hr in *; [discriminate | done].
Qed.

(* ===================================================================== *)
(** * The further properties on sample requests *)
(* ===================================================================== *)

Module ExtraRuns.
Import Float64 Scipy Sample.

Lemma frombuffer_tobytes_run : frombuffer (tobytes v_west) = Return v_west.
Proof.
  apply (frombuffer_tobytes v_west).
  repeat constructor; vm_compute; congruence.
Defined.

(** A blob of three bytes is refused, where four bytes are read as one
    element. *)
Example frombuffer_three_bytes :
  frombuffer [0; 0; 128]%Z
  = Raise (ValueError "buffer size must be a multiple of element size") ∧
  frombuffer [0; 0; 128; 63]%Z = Return [w_one].
Proof. split; reflexivity. Qed.

Lemma enrolled_table_compares_run :
  forallb decodes
    (table (enroll_all (Some extractor)
              [("alice", "east.wav"); ("dave", "silence.wav"); ("bob", "north.wav")]
              db_empty)) = true ∧
  ∃ r,
    identify_speaker (Some extractor) cosine_f32 "west.wav"
      (enroll_all (Some extractor)
         [("alice", "east.wav"); ("dave", "silence.wav"); ("bob", "north.wav")]
         db_empty)
    = (Return r,
       enroll_all (Some extractor)
         [("alice", "east.wav"); ("dave", "silence.wav"); ("bob", "north.wav")]
         db_empty) ∧
    (status r = "granted" ∨ status r = "denied" ∨
     r = mk_response "error" "No registered speakers found." None None ∅ ∨
     r = mk_response "error" "Could not compare voice with registered users."
           None None ∅).
Proof.
  apply (enrolled_table_compares (Some extractor) cosine_f32
           [("alice", "east.wav"); ("dave", "silence.wav"); ("bob", "north.wav")]
           "west.wav" v_west db_empty).
  - discriminate.
  - reflexivity.
  - intros db0. reflexivity.
Defined.

Lemma table_needs_initialize_db_run :
  identify_speaker (Some extractor) cosine_f32 "east.wav" fresh
  = (Return (mk_response "error" "Error during identification: no such table: speakers"
               None None ∅), fresh) ∧
  register_speaker (Some extractor) "alice" "east.wav" fresh
  = (Raise (Exception "Error in register_speaker: no such table: speakers"), fresh) ∧
  identify_speaker (Some extractor) cosine_f32 "east.wav" (initialize_db fresh).2
  = (Return (mk_response "error" "No registered speakers found." None None ∅),
     (initialize_db fresh).2) ∧
  register_speaker (Some extractor) "alice" "east.wav" (initialize_db fresh).2
  = (Return ("Speaker '" +:+ "alice" +:+ "' registered successfully."),
     mk_db (Some [("alice", tobytes v_east)])) ∧
  (∀ db1, speakers db1 ≠ None → (initialize_db db1).2 = db1) ∧
  (initialize_db (initialize_db fresh).2).2 = (initialize_db fresh).2.
Proof.
  apply (table_needs_initialize_db (Some extractor) cosine_f32
           "alice" "east.wav" v_east fresh).
  - reflexivity.
  - intros db0. reflexivity.
  - discriminate.
Defined.

(** A query of zeros has no direction: every distance is NaN. *)
Lemma no_number_no_match_run :
  match_speakers cosine_f32 (Some [w_zero; w_zero]) rows_two
  = Return (mk_response "error" "Could not compare voice with registered users."
              None None ∅).
Proof.
  apply (no_number_no_match cosine_f32 [w_zero; w_zero] rows_two).
  - reflexivity.
  - discriminate.
  - reflexivity.
Defined.

Example zero_query_distances :
  candidates cosine_f32 [w_zero; w_zero] rows_two = [("alice", nan); ("bob", nan)].
Proof. vm_compute. reflexivity. Qed.

Lemma undecodable_blob_aborts_run :
  identify_speaker (Some extractor) cosine_f32 "east.wav"
    (mk_db (Some ([("alice", tobytes v_east)] ++ ("zed", [0; 0; 128]%Z)
                    :: [("bob", tobytes v_north)])))
  = (Return (mk_response "error"
               "Error during identification: buffer size must be a multiple of element size"
               None None ∅),
     mk_db (Some ([("alice", tobytes v_east)] ++ ("zed", [0; 0; 128]%Z)
                    :: [("bob", tobytes v_north)]))).
Proof.
  apply (undecodable_blob_aborts (Some extractor) cosine_f32 "east.wav" _ v_east
           [("alice", tobytes v_east)] [("bob", tobytes v_north)] "zed" [0; 0; 128]%Z).
  - reflexivity.
  - reflexivity.
  - reflexivity.
  - reflexivity.
Defined.

Lemma none_embedding_in_identification_run :
  (speakers db_two = Some [] →
     identify_speaker (Some extractor) cosine_f32 "silence.wav" db_two
     = (Return (mk_response "error" "No registered speakers found." None None ∅),
        db_two)) ∧
  (∀ r rows, speakers db_two = Some (r :: rows) → decodes r = true →
     identify_speaker (Some extractor) cosine_f32 "silence.wav" db_two
     = (Return (mk_response "error"
                  "Error during identification: 'NoneType' object has no attribute 'shape'"
                  None None ∅), db_two)).
Proof.
  apply (none_embedding_in_identification (Some extractor) cosine_f32
           "silence.wav" db_two).
  reflexivity.
Defined.

Lemma enrol_then_verify_run :
  ∃ r,
    identify_speaker (Some extractor) cosine_f32 "west.wav"
      (register_speaker (Some extractor) "carol" "west.wav" db_two).2
    = (Return r, (register_speaker (Some extractor) "carol" "west.wav" db_two).2) ∧
    (status r ≠ "error" →
       probabilities r !! "carol"
       = Some (format_2f
                 (Float32.mul (Float32.sub Float32.f1 (cosine_f32 v_west v_west))
                    Float32.f100)
               +:+ "%")) ∧
    (below_inf (cosine_f32 v_west v_west) = true → status r ≠ "error") ∧
    (ltb (cosine_f32 v_west v_west) Float32.f0_7 = true → status r = "granted") ∧
    (rows_two = [] → ltb (cosine_f32 v_west v_west) Float32.f0_7 = true →
       person r = Some "carol" ∧ message r = "Welcome " +:+ "carol").
Proof.
  apply (enrol_then_verify (Some extractor) cosine_f32 "carol" "west.wav" "west.wav"
           v_west v_west rows_two db_two).
  - reflexivity.
  - decide_by_computation.
  - reflexivity.
  - intros db0. reflexivity.
  - intros db0. reflexivity.
  - discriminate.
  - repeat constructor; vm_compute; congruence.
  - reflexivity.
Defined.

(** The rows of [rows_tie] with the first two exchanged: the answer is
    "granted" in both orders, with the same confidence and scores. *)
Lemma scan_order_independent_run :
  ∃ r r',
    match_speakers cosine_f32 (Some v_east) rows_tie = Return r ∧
    match_speakers cosine_f32 (Some v_east)
      [("alice", tobytes v_east); ("bob", tobytes v_north); ("eve", tobytes v_east)]
    = Return r' ∧
    status r = status r' ∧
    confidence r = confidence r' ∧
    probabilities r = probabilities r' ∧
    (status r ≠ "granted" → r = r').
Proof.
  apply (scan_order_independent cosine_f32 v_east rows_tie
           [("alice", tobytes v_east); ("bob", tobytes v_north); ("eve", tobytes v_east)]).
  - reflexivity.
  - decide_by_computation.
  - apply perm_swap.
Defined.

(** With eve moved before alice, eve is the one that is granted. *)
Example scan_order_changes_the_name :
  person <$> (match match_speakers cosine_f32 (Some v_east) rows_tie with
              | Return r => Some r | Raise _ => None end) = Some (Some "alice") ∧
  person <$> (match match_speakers cosine_f32 (Some v_east)
                      [("eve", tobytes v_east); ("bob", tobytes v_north);
                       ("alice", tobytes v_east)] with
              | Return r => Some r | Raise _ => None end) = Some (Some "eve").
Proof. split; vm_compute; reflexivity. Qed.

Lemma probabilities_are_the_retained_run :
  ∃ r, match_speakers cosine_f32 (Some v_east) rows_mixed = Return r ∧
    (status r ≠ "error" →
       (∀ n s, probabilities r !! n = Some s ↔
               ∃ d, (n, d) ∈ candidates cosine_f32 v_east rows_mixed ∧
                    s = format_2f (Float32.mul (Float32.sub Float32.f1 d) Float32.f100)
                        +:+ "%") ∧
       (∀ n, person r = Some n → probabilities r !! n = confidence r)).
Proof.
  apply (probabilities_are_the_retained cosine_f32 v_east rows_mixed).
  - reflexivity.
  - decide_by_computation.
Defined.

(** A file that appears after three half-seconds. *)
Lemma wait_loop_bounded_run :
  wait_time_after 10 = max_wait ∧
  ∃ j : nat,
    (j ≤ 10)%nat ∧
    wait_loop (λ _ t, (3 <=? t)%Z) 11 "east.wav" zero 0
    = Some (wait_time_after j, (0 + Z.of_nat j)%Z) ∧
    (∀ i : nat, (i < j)%nat → (λ (_ : string) t, (3 <=? t)%Z) "east.wav" (0 + Z.of_nat i)%Z = false) ∧
    ((λ (_ : string) t, (3 <=? t)%Z) "east.wav" (0 + Z.of_nat j)%Z = true ∨ j = 10%nat).
Proof.
  apply (wait_loop_bounded (λ _ t, (3 <=? t)%Z) 11 "east.wav" 0). lia.
Defined.

Example wait_loop_three : 
  wait_loop (λ _ t, (3 <=? t)%Z) 11 "east.wav" zero 0
  = Some (S754_finite false 6755399441055744 (-52), 3%Z) ∧
  wait_loop (λ _ _, false) 11 "east.wav" zero 0 = Some (max_wait, 10%Z) ∧
  wait_loop (λ _ _, false) 10 "east.wav" zero 0 = None.
Proof. repeat split; vm_compute; reflexivity. Qed.

Lemma register_route_outcomes_run :
  register (Some extractor) (λ _ _, false) 11 "west.wav" (Some "carol") (mk_world db_two 0)
  = Some (Return ("error", "Recording file not found"), mk_world db_two (0 + 10)).
Proof.
  apply (proj1 (proj2 (proj2
           (register_route_outcomes (Some extractor) (λ _ _, false) 11 "west.wav"
              (Some "carol") (mk_world db_two 0) ltac:(lia))) "carol" eq_refl
           ltac:(discriminate))).
  intros i Hi. reflexivity.
Defined.

Example register_route_stores :
  register (Some extractor) (λ _ t, (3 <=? t)%Z) 11 "west.wav" (Some "carol")
    (mk_world db_two 0)
  = Some (Return ("success", "Speaker 'carol' registered successfully."),
          mk_world (mk_db (Some (rows_two ++ [("carol", tobytes v_west)]))) 7).
Proof. vm_compute. reflexivity. Qed.

Lemma classify_route_outcomes_run :
  classify (Some extractor) cosine_f32 (λ _ _, false) 11 (Some "") (mk_world db_two 0)
  = Some (Return (mk_response "error" "No file path provided" None None ∅),
          mk_world db_two 0).
Proof.
  apply (proj1 (proj2
           (classify_route_outcomes (Some extractor) cosine_f32 (λ _ _, false) 11
              (Some "") (mk_world db_two 0) ltac:(lia)))).
  right. reflexivity.
Defined.

End ExtraRuns.
